(** * Nuclear Explosions Explorer: a shallow embedding of [nuclear_app.py]

    The application is one Streamlit script: it loads a CSV table once,
    reads the sidebar widgets, filters the table with boolean masks,
    prints a summary and renders one of five sections.

    Conventions of the embedding.
    - A pandas [Series] is the list of its values in row order; a
      [DataFrame] is its list of column labels together with its rows.
    - Text is ASCII text.  Case folding only touches the letters A-Z.
    - Numeric cells (coordinates, depth) are integers in the unit of the
      source file; only their order is used.  The float64 arithmetic of
      [Series.mean] and the density estimate of [sns.histplot] are not
      embedded: both library calls are parameters of the script.
    - A Python exception is the [Raise] outcome of the [result] type.
    - What the user enters in the widgets is an input of a run. *)

From Stdlib Require Import List String Ascii ZArith QArith Bool Lia Arith.
From Stdlib Require Import Permutation Sorted.
Import ListNotations.
Open Scope string_scope.
Open Scope Z_scope.

(* ================================================================== *)
(** ** Exceptions and results *)

Inductive exn : Type :=
| FileNotFoundError (path : string)
| ParserError
| KeyError (labels : list string)
| ValueError (msg : string)
| ReError                 (* re.error: the pattern does not compile *)
| StreamlitDefaultNotInOptionsError
                          (* a multiselect default that is no option *)
| StreamlitAPIException (msg : string)
| LinAlgError             (* numpy.linalg.LinAlgError *)
| PatternNotModelled.     (* regular-expression syntax beyond the fragment
                             embedded below; nothing is stated about it *)

Inductive result (A : Type) : Type :=
| Ok (a : A)
| Raise (e : exn).
Arguments Ok {A} a.
Arguments Raise {A} e.

Definition bind {A B} (r : result A) (k : A -> result B) : result B :=
  match r with
  | Ok a => k a
  | Raise e => Raise e
  end.

Declare Scope result_scope.
Delimit Scope result_scope with result.
Notation "x <- r ;; k" := (bind r (fun x => k))
  (at level 61, r at next level, right associativity) : result_scope.
Open Scope result_scope.

(* ================================================================== *)
(** ** Text *)

Definition lower_char (c : ascii) : ascii :=
  let n := N_of_ascii c in
  if ((65 <=? n) && (n <=? 90))%N then ascii_of_N (n + 32) else c.

Fixpoint lower (s : string) : string :=
  match s with
  | EmptyString => EmptyString
  | String c s' => String (lower_char c) (lower s')
  end.

Definition newline : string := String "010"%char EmptyString.

(** Python truthiness of a [str]: [if search:]. *)
Definition truthy (s : string) : bool :=
  match s with
  | EmptyString => false
  | String _ _ => true
  end.

(** [x in xs] for a list of strings. *)
Definition mem (x : string) (xs : list string) : bool :=
  existsb (String.eqb x) xs.

(** *** The regular expressions of [Series.str.contains]

    [str.contains(pat, case=False, na=False)] keeps pandas' default
    [regex=True]: the pattern is compiled with [re.IGNORECASE] before any
    row is looked at, and a row matches when [re.search] finds the
    pattern somewhere in the text.

    The fragment embedded here is the one the development computes with:
    ordinary characters, which match themselves up to case, and [.],
    which matches any character but a newline.  A pattern with an opening
    parenthesis and nothing that could close or escape it does not
    compile.  Every other pattern is [PatternNotModelled]. *)

Definition SPECIAL_CHARS : list ascii :=
  ["."; "092"; "["; "{"; "("; ")"; "*"; "+"; "?"; "^"; "$"; "|"]%char.

Definition is_special (c : ascii) : bool :=
  existsb (Ascii.eqb c) SPECIAL_CHARS.

Inductive atom : Type :=
| Literal (c : ascii)
| AnyChar.

Fixpoint parse (pat : string) : option (list atom) :=
  match pat with
  | EmptyString => Some []
  | String c rest =>
      if (c =? ".")%char then option_map (cons AnyChar) (parse rest)
      else if is_special c then None
      else option_map (cons (Literal c)) (parse rest)
  end.

Fixpoint chars_all (p : ascii -> bool) (s : string) : bool :=
  match s with
  | EmptyString => true
  | String c rest => p c && chars_all p rest
  end.

Fixpoint chars_any (p : ascii -> bool) (s : string) : bool :=
  match s with
  | EmptyString => false
  | String c rest => p c || chars_any p rest
  end.

(** An opening parenthesis that is a group opener (the pattern has no
    backslash and no bracket) and no closing parenthesis anywhere. *)
Definition unterminated_group (pat : string) : bool :=
  chars_any (fun c => (c =? "(")%char) pat
  && chars_all (fun c => (c =? "(")%char || (c =? ".")%char
                         || negb (is_special c)) pat.

Definition re_compile (pat : string) : result (list atom) :=
  match parse pat with
  | Some atoms => Ok atoms
  | None => if unterminated_group pat then Raise ReError
            else Raise PatternNotModelled
  end.

Definition atom_matches (a : atom) (c : ascii) : bool :=
  match a with
  | Literal x => (lower_char x =? lower_char c)%char
  | AnyChar => negb (c =? "010")%char
  end.

Fixpoint match_here (atoms : list atom) (s : string) : bool :=
  match atoms, s with
  | [], _ => true
  | _ :: _, EmptyString => false
  | a :: atoms', String c s' => atom_matches a c && match_here atoms' s'
  end.

Fixpoint re_search (atoms : list atom) (s : string) : bool :=
  match_here atoms s
  || match s with
     | EmptyString => false
     | String _ s' => re_search atoms s'
     end.

(** The matcher of one [str.contains] call: compile once, then test each
    row. *)
Definition contains_ignorecase (pat : string) : result (string -> bool) :=
  atoms <- re_compile pat ;;
  Ok (re_search atoms).

(** The words of the specification: the search text occurs in the name
    when case is ignored. *)
Definition occurs_ignoring_case (needle text : string) : Prop :=
  exists before after, lower text = before ++ lower needle ++ after.

(* ================================================================== *)
(** ** Tables *)

(** One line of [nuclear_explosions.csv], restricted to the columns the
    script reads.  [None] is an empty cell (NaN once read). *)
Record RawRow : Type := {
  Location_Cordinates_Latitude : option Z;
  Location_Cordinates_Longitude : option Z;
  Date_Day : option Z;
  Date_Month : option Z;
  Date_Year : option Z;
  WEAPON_SOURCE_COUNTRY : option string;
  WEAPON_DEPLOYMENT_LOCATION : option string;
  Location_Cordinates_Depth : option Z;
  Data_Purpose : option string;
  Data_Name : option string;
  Data_Type : option string
}.

(** The file as [pd.read_csv] returns it: the header and the lines.  A
    field whose column is not in the header is never read. *)
Record Csv : Type := {
  header : list string;
  lines : list RawRow
}.

(** A line with none of the eleven cells empty, under its index label. *)
Record CompleteRow : Type := {
  c_index : nat;
  c_latitude : Z;
  c_longitude : Z;
  c_day : Z;
  c_month : Z;
  c_year : Z;
  c_country : string;
  c_location : string;
  c_depth : Z;
  c_purpose : string;
  c_name : string;
  c_type : string
}.

(** A row of the loaded table: the index label it had in the file and the
    columns the rest of the script reads. *)
Record Row : Type := {
  index : nat;
  Latitude : Z;
  Longitude : Z;
  Day : Z;
  Month : Z;
  Year : Z;
  Country : string;
  Location : string;
  Depth : Z;
  Purpose : string;
  TestName : string;
  TestType : string;
  Category : string
}.

Record DataFrame : Type := {
  columns : list string;
  rows : list Row
}.

(** [pd.DataFrame()] *)
Definition empty_frame : DataFrame := {| columns := []; rows := [] |}.

(** [df[label]]: the column as a series, [KeyError] when there is none. *)
Definition getitem {A} (df : DataFrame) (label : string) (field : Row -> A)
  : result (list A) :=
  if mem label (columns df) then Ok (map field (rows df))
  else Raise (KeyError [label]).

(** [Series.isin(values)] *)
Definition isin (s : list string) (values : list string) : list bool :=
  map (fun v => mem v values) s.

(** [Series.between(left, right)], inclusive on both sides. *)
Definition between (s : list Z) (left right : Z) : list bool :=
  map (fun v => (left <=? v) && (v <=? right)) s.

(** [mask1 & mask2] *)
Fixpoint mask_and (m1 m2 : list bool) : list bool :=
  match m1, m2 with
  | b1 :: m1', b2 :: m2' => (b1 && b2) :: mask_and m1' m2'
  | _, _ => []
  end.

Fixpoint select_rows {A} (xs : list A) (mask : list bool) : list A :=
  match xs, mask with
  | x :: xs', b :: mask' =>
      if b then x :: select_rows xs' mask' else select_rows xs' mask'
  | _, _ => []
  end.

(** [df[mask]]: the rows whose mask entry is [True], columns unchanged. *)
Definition loc_mask (df : DataFrame) (mask : list bool) : DataFrame :=
  {| columns := columns df; rows := select_rows (rows df) mask |}.

(* ================================================================== *)
(** ** Series helpers *)

(** A pandas scalar: a number, or NaN for the aggregate of no value. *)
Inductive scalar : Type :=
| NaN
| Num (z : Z)
| Frac (q : Q).

(** [int(x)] *)
Definition int (x : scalar) : result Z :=
  match x with
  | NaN => Raise (ValueError "cannot convert float NaN to integer")
  | Num z => Ok z
  | Frac q => Ok (Z.quot (Qnum q) (Zpos (Qden q)))
  end.

Definition series_min (s : list Z) : scalar :=
  match s with
  | [] => NaN
  | x :: s' => Num (fold_left Z.min s' x)
  end.

Definition series_max (s : list Z) : scalar :=
  match s with
  | [] => NaN
  | x :: s' => Num (fold_left Z.max s' x)
  end.

(** [Series.unique()]: the distinct values in order of first appearance. *)
Fixpoint unique (s : list string) : list string :=
  match s with
  | [] => []
  | x :: s' => x :: filter (fun y => negb (String.eqb x y)) (unique s')
  end.

Fixpoint uniqueZ (s : list Z) : list Z :=
  match s with
  | [] => []
  | x :: s' => x :: filter (fun y => negb (Z.eqb x y)) (uniqueZ s')
  end.

Definition nunique (s : list string) : nat := List.length (unique s).

Definition occurrences (x : string) (s : list string) : nat :=
  List.length (filter (String.eqb x) s).

Definition occurrencesZ (x : Z) (s : list Z) : nat :=
  List.length (filter (Z.eqb x) s).

(** A stable sort: [insert] puts [x] in front of the first element it may
    precede, so elements that compare equal keep their order. *)
Section Sorting.
Context {A : Type}.
Variable leb : A -> A -> bool.

Fixpoint insert (x : A) (l : list A) : list A :=
  match l with
  | [] => [x]
  | y :: l' => if leb x y then x :: l else y :: insert x l'
  end.

Definition sort_by (l : list A) : list A := fold_right insert [] l.
End Sorting.

(** [sorted(xs)] on strings. *)
Definition sorted (xs : list string) : list string := sort_by String.leb xs.

(** [Series.value_counts()]: each distinct value with its number of
    occurrences, most frequent first, ties in order of first appearance. *)
Definition value_counts (s : list string) : list (string * nat) :=
  sort_by (fun a b => (snd b <=? snd a)%nat)
          (map (fun v => (v, occurrences v s)) (unique s)).

Definition value_countsZ (s : list Z) : list (Z * nat) :=
  sort_by (fun a b => (snd b <=? snd a)%nat)
          (map (fun v => (v, occurrencesZ v s)) (uniqueZ s)).

(** [Series.sort_index()] of a series of counts labelled by years. *)
Definition sort_index (s : list (Z * nat)) : list (Z * nat) :=
  sort_by (fun a b => fst a <=? fst b) s.

(** [Series.idxmax()]: the label of the first greatest value. *)
Fixpoint first_max {L} (best : L * nat) (s : list (L * nat)) : L * nat :=
  match s with
  | [] => best
  | x :: s' => first_max (if (snd best <? snd x)%nat then x else best) s'
  end.

Definition idxmax {L} (s : list (L * nat)) : result L :=
  match s with
  | [] => Raise (ValueError "attempt to get argmax of an empty sequence")
  | x :: s' => Ok (fst (first_max x s'))
  end.

(** [Series.max()] of a series of counts. *)
Definition max_count {L} (s : list (L * nat)) : scalar :=
  match s with
  | [] => NaN
  | x :: s' => Num (Z.of_nat (snd (first_max x s')))
  end.

(** [DataFrame.nlargest(n, "Depth")] with the default [keep="first"]: the
    [n] rows of greatest depth, greatest first, rows of equal depth in
    their order in the frame. *)
Definition deeper_first (a b : Row) : bool := Depth b <=? Depth a.

Definition nlargest_depth (n : nat) (df : DataFrame) : result DataFrame :=
  if mem "Depth" (columns df)
  then Ok {| columns := columns df;
             rows := firstn n (sort_by deeper_first (rows df)) |}
  else Raise (KeyError ["Depth"]).

(** [DataFrame.head(n)] *)
Definition head (n : nat) (df : DataFrame) : DataFrame :=
  {| columns := columns df; rows := firstn n (rows df) |}.

(* ================================================================== *)
(** ** What a run draws *)

(** A displayed value; an f-string is the sequence of its pieces. *)
Inductive value : Type :=
| VText (s : string)
| VInt (z : Z)
| VNat (n : nat)
| VScalar (x : scalar)
| VFixed2 (x : scalar)       (* formatted with [:.2f] *)
| VExc (e : exn).

Inductive chart : Type :=
| histplot (depth_and_hue : list (Z * string))   (* x="Depth", hue="Category" *)
| bar_plot (counts : list (Z * nat)).

Inductive element : Type :=
| st_image
| st_title (s : string)
| st_markdown (text : list value)
| st_error (text : list value)
| st_warning (s : string)
| st_success (s : string)
| st_header (s : string)
| st_subheader (s : string)
| st_write (args : list value)
| st_metric (label : list value) (shown : list value)
| st_radio (label : string) (options : list string)
| st_multiselect (label : string) (options default : list string)
| st_slider (label : string) (min_value max_value : Z) (default : list Z)
| st_text_input (label : string)
| st_text_area (label : string)
| st_form_submit_button (label : string)
| st_pyplot (fig : chart)
| st_pydeck_chart (latitude longitude : scalar) (data : list Row)
| st_dataframe (labels : list string) (table : list (nat * list value))
| inside (container : string) (e : element).   (* [with container:] *)

(** The script monad: the elements drawn so far and the outcome.  An
    exception keeps what is already on the page. *)
Definition st (A : Type) : Type := list element -> result A * list element.

Definition ret {A} (a : A) : st A := fun page => (Ok a, page).

Definition and_then {A B} (m : st A) (k : A -> st B) : st B :=
  fun page =>
    match m page with
    | (Ok a, page') => k a page'
    | (Raise e, page') => (Raise e, page')
    end.

Definition draw (e : element) : st unit := fun page => (Ok tt, (page ++ [e])%list).

Definition lift {A} (r : result A) : st A := fun page => (r, page).

Declare Scope st_scope.
Delimit Scope st_scope with st.
Notation "x <~ m ;; k" := (and_then m (fun x => k))
  (at level 61, m at next level, right associativity) : st_scope.
Notation "m ;;; k" := (and_then m (fun _ => k))
  (at level 61, right associativity) : st_scope.
Open Scope st_scope.

(* ================================================================== *)
(** ** [load_data] *)

Definition required_columns : list string :=
  [ "Location.Cordinates.Latitude";
    "Location.Cordinates.Longitude";
    "Date.Day";
    "Date.Month";
    "Date.Year";
    "WEAPON SOURCE COUNTRY";
    "WEAPON DEPLOYMENT LOCATION";
    "Location.Cordinates.Depth";
    "Data.Purpose";
    "Data.Name";
    "Data.Type" ].

(** The labels the script assigns, in the order of the assignments. *)
Definition assigned_columns : list string :=
  [ "Latitude"; "Longitude"; "Year"; "Country"; "Depth"; "Location";
    "Purpose"; "Test Name"; "Test Type"; "Category" ].

Record RawFrame : Type := {
  raw_columns : list string;
  raw_rows : list (nat * RawRow)
}.

(** What the process finds on disk. *)
Record Env : Type := {
  banner_png : bool;                       (* [banner.png] can be opened *)
  nuclear_explosions_csv : result Csv      (* outcome of reading the file *)
}.

(** [pd.read_csv]: the lines get the index labels 0, 1, 2, ... *)
Definition read_csv (file : result Csv) : result RawFrame :=
  csv <- file ;;
  Ok {| raw_columns := header csv;
        raw_rows := combine (seq 0 (List.length (lines csv))) (lines csv) |}.

Definition opt_bind {A B} (o : option A) (k : A -> option B) : option B :=
  match o with
  | Some a => k a
  | None => None
  end.

(** The line when none of its eleven cells is empty. *)
Definition non_null (labelled : nat * RawRow) : option CompleteRow :=
  let (i, r) := labelled in
  opt_bind (Location_Cordinates_Latitude r) (fun latitude =>
  opt_bind (Location_Cordinates_Longitude r) (fun longitude =>
  opt_bind (Date_Day r) (fun day =>
  opt_bind (Date_Month r) (fun month =>
  opt_bind (Date_Year r) (fun year =>
  opt_bind (WEAPON_SOURCE_COUNTRY r) (fun country =>
  opt_bind (WEAPON_DEPLOYMENT_LOCATION r) (fun location =>
  opt_bind (Location_Cordinates_Depth r) (fun depth =>
  opt_bind (Data_Purpose r) (fun purpose =>
  opt_bind (Data_Name r) (fun name =>
  opt_bind (Data_Type r) (fun type =>
  Some {| c_index := i; c_latitude := latitude; c_longitude := longitude;
          c_day := day; c_month := month; c_year := year;
          c_country := country; c_location := location; c_depth := depth;
          c_purpose := purpose; c_name := name; c_type := type |}))))))))))).

Fixpoint keep_some {A B} (f : A -> option B) (l : list A) : list B :=
  match l with
  | [] => []
  | a :: l' =>
      match f a with
      | Some b => b :: keep_some f l'
      | None => keep_some f l'
      end
  end.

(** [df.dropna(subset=[the eleven labels])]: [KeyError] on a label that is
    not a column, else the lines with all eleven cells present. *)
Definition dropna (df : RawFrame) : result (list string * list CompleteRow) :=
  match filter (fun l => negb (mem l (raw_columns df))) required_columns with
  | [] => Ok (raw_columns df, keep_some non_null (raw_rows df))
  | missing => Raise (KeyError missing)
  end.

(** [df[label] = ...] on the column labels: a new label goes last. *)
Definition setitem (cols : list string) (label : string) : list string :=
  if mem label cols then cols else (cols ++ [label])%list.

(** The ten assignments, row by row. *)
Definition assign (c : CompleteRow) : Row :=
  let latitude := c_latitude c in
  let longitude := c_longitude c in
  let year := c_year c in
  let country := c_country c in
  let depth := c_depth c in
  let location := c_location c ++ ", " ++ country in
  let purpose := c_purpose c in
  let test_name := c_name c in
  let test_type := c_type c in
  let category := test_type in
  {| index := c_index c; Latitude := latitude; Longitude := longitude;
     Day := c_day c; Month := c_month c; Year := year; Country := country;
     Location := location; Depth := depth; Purpose := purpose;
     TestName := test_name; TestType := test_type; Category := category |}.

(** The [try] block of [load_data]. *)
Definition load_data_body (file : result Csv) : result DataFrame :=
  df <- read_csv file ;;
  kept <- dropna df ;;
  Ok {| columns := fold_left setitem assigned_columns (fst kept);
        rows := map assign (snd kept) |}.

(** [load_data()].  The cache decorator only matters across runs. *)
Definition load_data (env : Env) : st DataFrame :=
  match load_data_body (nuclear_explosions_csv env) with
  | Ok df => ret df
  | Raise e =>
      draw (st_error [VText "Error loading data: "; VExc e]) ;;;
      ret empty_frame
  end.

(* ================================================================== *)
(** ** The widgets' values *)

Inductive Page : Type := Overview | Charts | Map | Details | Feedback.

(** The filter criteria: what the four sidebar filters return. *)
Record Criteria : Type := {
  countries : list string;
  year_range : Z * Z;
  selected_categories : list string;
  search : string
}.

Record Inputs : Type := {
  section : Page;
  criteria : Criteria;
  name : string;
  rating : Z;
  comments : string;
  submitted : bool
}.

Record Summary : Type := {
  count : nat;
  avg_depth : scalar;
  min_depth : scalar;
  max_depth : scalar;
  avg_lat : scalar;
  avg_lon : scalar;
  unique_locations : nat;
  top_country : string;
  top_purpose : string;
  top_type : string
}.

(** The cell of a row under a column label, as a table shows it. *)
Definition cell (label : string) (r : Row) : value :=
  if (label =? "Country")%string then VText (Country r)
  else if (label =? "Location")%string then VText (Location r)
  else if (label =? "Year")%string then VInt (Year r)
  else if (label =? "Depth")%string then VInt (Depth r)
  else if (label =? "Category")%string then VText (Category r)
  else if (label =? "Test Name")%string then VText (TestName r)
  else if (label =? "Test Type")%string then VText (TestType r)
  else if (label =? "Purpose")%string then VText (Purpose r)
  else if (label =? "Latitude")%string then VInt (Latitude r)
  else if (label =? "Longitude")%string then VInt (Longitude r)
  else VText "".

(** [df[[labels]]] as the table to show. *)
Definition take_columns (df : DataFrame) (labels : list string)
  : result (list (nat * list value)) :=
  match filter (fun l => negb (mem l (columns df))) labels with
  | [] => Ok (map (fun r => (index r, map (fun l => cell l r) labels)) (rows df))
  | missing => Raise (KeyError missing)
  end.

(** [st.sidebar.multiselect(label, options, default)].  Streamlit refuses
    a default value that is not among the options. *)
Definition multiselect (label : string) (options default : list string) : st unit :=
  if forallb (fun d => mem d options) default
  then draw (inside "sidebar" (st_multiselect label options default))
  else lift (Raise StreamlitDefaultNotInOptionsError).

(** The integers Streamlit hands to the browser. *)
Definition MAX_SAFE_INTEGER : Z := 2 ^ 53 - 1.

(** [st.sidebar.slider(label, min_value, max_value, (start, end))].
    Streamlit widens the bounds to hold the default interval and refuses
    bounds outside the integers the browser represents; the element
    keeps the arguments of the call. *)
Definition slider (label : string) (min_value max_value : Z) (value : Z * Z)
  : st unit :=
  let low := Z.min (fst value) (Z.min min_value max_value) in
  let high := Z.max (snd value) (Z.max min_value max_value) in
  if (- MAX_SAFE_INTEGER <=? low) && (high <=? MAX_SAFE_INTEGER)
  then draw (inside "sidebar"
               (st_slider label min_value max_value [fst value; snd value]))
  else lift (Raise (StreamlitAPIException
                      "value outside the JavaScript integer bounds")).

Section Script.

(** The matcher behind [Series.str.contains(pat, case=False, na=False)]:
    an exception when the pattern does not compile, else the test
    applied to every name.  [contains_ignorecase] is its embedded
    fragment. *)
Variable str_contains : string -> result (string -> bool).

(** [Series.mean()] on a numeric column: float64 arithmetic of the
    library, NaN on no value. *)
Variable Series_mean : list Z -> scalar.

(** [sns.histplot(data=..., x="Depth", hue="Category", kde=True, ax=ax1)]
    on the depth and category of every row: the call draws on the axes
    or raises (the density estimate can fail, for one with
    [numpy.linalg.LinAlgError]). *)
Variable sns_histplot : list (Z * string) -> result unit.

(** Lines 82-91. *)
Definition filtered_data (data : DataFrame) (c : Criteria) : result DataFrame :=
  selected <-
    (if mem "All" (selected_categories c) then
       country <- getitem data "Country" Country ;;
       year <- getitem data "Year" Year ;;
       Ok (loc_mask data
             (mask_and (isin country (countries c))
                       (between year (fst (year_range c)) (snd (year_range c)))))
     else
       country <- getitem data "Country" Country ;;
       year <- getitem data "Year" Year ;;
       category <- getitem data "Category" Category ;;
       Ok (loc_mask data
             (mask_and
                (mask_and (isin country (countries c))
                          (between year (fst (year_range c)) (snd (year_range c))))
                (isin category (selected_categories c))))) ;;
  if truthy (search c) then
    names <- getitem selected "Test Name" TestName ;;
    matcher <- str_contains (search c) ;;
    Ok (loc_mask selected (map matcher names))
  else Ok selected.

(** The filter as the specification words it when the category
    condition is dropped: country and year masks, then the search. *)
Definition filter_without_category (data : DataFrame) (c : Criteria)
  : result DataFrame :=
  country <- getitem data "Country" Country ;;
  year <- getitem data "Year" Year ;;
  let selected :=
    loc_mask data
      (mask_and (isin country (countries c))
                (between year (fst (year_range c)) (snd (year_range c)))) in
  if truthy (search c) then
    names <- getitem selected "Test Name" TestName ;;
    matcher <- str_contains (search c) ;;
    Ok (loc_mask selected (map matcher names))
  else Ok selected.

(** Filtering a view that a first filter produced. *)
Definition filter_twice (data : DataFrame) (c : Criteria) : result DataFrame :=
  view <- filtered_data data c ;;
  filtered_data view c.

(** Lines 94-117: the sidebar summary. *)
Definition sidebar_summary (filtered : DataFrame) : st (option Summary) :=
  let count := List.length (rows filtered) in
  if (0 <? count)%nat then
    depth <~ lift (getitem filtered "Depth" Depth) ;;
    let avg_depth := Series_mean depth in
    depth <~ lift (getitem filtered "Depth" Depth) ;;
    let min_depth := series_min depth in
    depth <~ lift (getitem filtered "Depth" Depth) ;;
    let max_depth := series_max depth in
    latitude <~ lift (getitem filtered "Latitude" Latitude) ;;
    let avg_lat := Series_mean latitude in
    longitude <~ lift (getitem filtered "Longitude" Longitude) ;;
    let avg_lon := Series_mean longitude in
    location <~ lift (getitem filtered "Location" Location) ;;
    let unique_locations := nunique location in
    country <~ lift (getitem filtered "Country" Country) ;;
    top_country <~ lift (idxmax (value_counts country)) ;;
    purpose <~ lift (getitem filtered "Purpose" Purpose) ;;
    top_purpose <~ lift (idxmax (value_counts purpose)) ;;
    test_type <~ lift (getitem filtered "Test Type" TestType) ;;
    top_type <~ lift (idxmax (value_counts test_type)) ;;
    let box := inside "sidebar.expander(Data Summary)" in
    draw (box (st_markdown [VText "**# of Explosions:** "; VNat count])) ;;;
    draw (box (st_markdown [VText "**Avg Depth:** "; VFixed2 avg_depth; VText " m"])) ;;;
    draw (box (st_markdown [VText "**Min Depth:** "; VFixed2 min_depth; VText " m"])) ;;;
    draw (box (st_markdown [VText "**Max Depth:** "; VFixed2 max_depth; VText " m"])) ;;;
    draw (box (st_markdown [VText "**Avg Lat/Lon:** "; VFixed2 avg_lat;
                            VText ", "; VFixed2 avg_lon])) ;;;
    draw (box (st_markdown [VText "**Unique Test Sites:** "; VNat unique_locations])) ;;;
    draw (box (st_markdown [VText "**Most Tested Country:** "; VText top_country])) ;;;
    draw (box (st_markdown [VText "**Most Common Purpose:** "; VText top_purpose])) ;;;
    draw (box (st_markdown [VText "**Most Common Test Type:** "; VText top_type])) ;;;
    ret (Some {| count := count; avg_depth := avg_depth; min_depth := min_depth;
                 max_depth := max_depth; avg_lat := avg_lat; avg_lon := avg_lon;
                 unique_locations := unique_locations; top_country := top_country;
                 top_purpose := top_purpose; top_type := top_type |})
  else
    draw (st_warning "No data matches the selected filters.") ;;;
    ret None.

(** Lines 120-133. *)
Definition overview (filtered : DataFrame) (c : Criteria)
           (summary : option Summary) : st unit :=
  draw (st_header "Overview") ;;;
  draw (st_write [VText "Showing "; VNat (List.length (rows filtered));
                  VText " explosions from "; VInt (fst (year_range c));
                  VText " to "; VInt (snd (year_range c))]) ;;;
  (* [count > 0] holds exactly when the summary variables are bound *)
  match summary with
  | Some s =>
      draw (inside "col1" (st_metric [VText "Deepest Explosion (m)"]
                                     [VFixed2 (max_depth s)])) ;;;
      draw (inside "col2" (st_metric [VText "Shallowest Explosion (m)"]
                                     [VFixed2 (min_depth s)])) ;;;
      year <~ lift (getitem filtered "Year" Year) ;;
      top_year <~ lift (idxmax (value_countsZ year)) ;;
      year <~ lift (getitem filtered "Year" Year) ;;
      let top_year_count := max_count (value_countsZ year) in
      draw (inside "col3" (st_metric [VText "Peak Year ("; VInt top_year; VText ")"]
                                     [VScalar top_year_count; VText " tests"]))
  | None => ret tt
  end.

(** Lines 135-155. *)
Definition charts (filtered : DataFrame) : st unit :=
  if (1 <? List.length (rows filtered))%nat then
    draw (st_header "Explosion Depth Distribution") ;;;
    draw (inside "col1" (st_markdown
            [VText "**About this chart:**"; VText newline; VText newline;
             VText "This histogram shows how deep each nuclear explosion occurred. It helps us understand testing patterns across test categories and countries."])) ;;;
    depth <~ lift (getitem filtered "Depth" Depth) ;;
    category <~ lift (getitem filtered "Category" Category) ;;
    lift (sns_histplot (combine depth category)) ;;;
    draw (inside "col1" (st_pyplot (histplot (combine depth category)))) ;;;
    draw (inside "col2" (st_markdown
            [VText "**About this chart:**"; VText newline; VText newline;
             VText "This bar chart displays the number of nuclear tests conducted per year in the filtered range. It helps identify peak testing periods."])) ;;;
    year <~ lift (getitem filtered "Year" Year) ;;
    draw (inside "col2" (st_pyplot (bar_plot (sort_index (value_countsZ year)))))
  else
    draw (st_warning "Not enough data to generate charts. Try adjusting your filters.").

(** Lines 157-182. *)
Definition map_section (filtered : DataFrame) : st unit :=
  if (0 <? List.length (rows filtered))%nat then
    draw (st_header "Explosion Locations") ;;;
    draw (st_markdown [VText "This interactive map displays the geographical distribution of nuclear test sites. Each dot represents a test explosion site."]) ;;;
    latitude <~ lift (getitem filtered "Latitude" Latitude) ;;
    longitude <~ lift (getitem filtered "Longitude" Longitude) ;;
    draw (st_pydeck_chart (Series_mean latitude) (Series_mean longitude) (rows filtered))
  else
    draw (st_warning "No map data to display.").

(** Lines 184-194. *)
Definition details (filtered : DataFrame) : st unit :=
  if (0 <? List.length (rows filtered))%nat then
    draw (st_header "Top 5 Deepest Explosions") ;;;
    draw (st_markdown [VText "This table shows the five deepest nuclear explosions based on filtered data."]) ;;;
    deepest <~ lift (nlargest_depth 5 filtered) ;;
    table <~ lift (take_columns deepest
                     ["Country"; "Location"; "Year"; "Depth"; "Category"]) ;;
    draw (st_dataframe ["Country"; "Location"; "Year"; "Depth"; "Category"] table) ;;;
    draw (st_subheader "Explosion Test Details") ;;;
    draw (st_markdown [VText "A preview of key details for up to 10 nuclear tests matching your current filters."]) ;;;
    table <~ lift (take_columns (head 10 filtered)
                     ["Test Name"; "Test Type"; "Purpose"; "Country"; "Year"; "Category"]) ;;
    draw (st_dataframe ["Test Name"; "Test Type"; "Purpose"; "Country"; "Year"; "Category"]
                       table)
  else
    draw (st_warning "No test details available for selected filters.").

(** Lines 204-210: what a submission of the form draws. *)
Definition acknowledge (name : string) (rating : Z) (comments : string) : st unit :=
  draw (st_success "Thank you for your feedback!") ;;;
  draw (st_write [VText "**Rating:**"; VInt rating]) ;;;
  (if truthy name then draw (st_write [VText "**Submitted by:**"; VText name])
   else ret tt) ;;;
  (if truthy comments then draw (st_write [VText "**Comment:**"; VText comments])
   else ret tt).

(** Lines 196-210. *)
Definition feedback (i : Inputs) : st unit :=
  draw (st_header "User Feedback") ;;;
  draw (inside "feedback_form" (st_text_input "Your Name (Optional):")) ;;;
  draw (inside "feedback_form" (st_slider "How useful is this tool?" 1 5 [3])) ;;;
  draw (inside "feedback_form" (st_text_area "Additional Comments")) ;;;
  draw (inside "feedback_form" (st_form_submit_button "Submit Feedback")) ;;;
  if submitted i then acknowledge (name i) (rating i) (comments i) else ret tt.

(** [Image.open("banner.png")] *)
Definition Image_open (env : Env) : result unit :=
  if banner_png env then Ok tt else Raise (FileNotFoundError "banner.png").

(** Lines 69-79: the sidebar filters are set up from the loaded table.
    The widgets return what the user selects, which [Inputs] holds;
    [multiselect] and [slider] carry the checks Streamlit makes on the
    arguments. *)
Definition sidebar_filters (data : DataFrame) : st unit :=
  draw (inside "sidebar" (st_title "Filters")) ;;;
  country <~ lift (getitem data "Country" Country) ;;
  multiselect "Select countries:" (unique country) ["USA"; "USSR"] ;;;
  year <~ lift (getitem data "Year" Year) ;;
  min_year <~ lift (int (series_min year)) ;;
  year <~ lift (getitem data "Year" Year) ;;
  max_year <~ lift (int (series_max year)) ;;
  slider "Select year range:" min_year max_year (1960, 1980) ;;;
  category <~ lift (getitem data "Category" Category) ;;
  let category_options := "All" :: sorted (unique category) in
  multiselect "Select Categories:" category_options ["All"] ;;;
  draw (inside "sidebar" (st_text_input "Search by Test Name")).

(** The whole script, top to bottom. *)
Definition script (env : Env) (i : Inputs) : st unit :=
  lift (Image_open env) ;;;
  draw st_image ;;;
  draw (st_title "Nuclear Explosions Explorer") ;;;
  draw (st_markdown [VText "Welcome to Khoa Pham's Nuclear Explosion Research App. Explore historical nuclear test data by country, depth, purpose, and type."]) ;;;
  data <~ load_data env ;;
  draw (inside "sidebar"
          (st_radio "Navigate" ["Overview"; "Charts"; "Map"; "Details"; "Feedback"])) ;;;
  sidebar_filters data ;;;
  filtered <~ lift (filtered_data data (criteria i)) ;;
  summary <~ sidebar_summary filtered ;;
  match section i with
  | Overview => overview filtered (criteria i) summary
  | Charts => charts filtered
  | Map => map_section filtered
  | Details => details filtered
  | Feedback => feedback i
  end.

(** One run of the session from an empty page. *)
Definition run (env : Env) (i : Inputs) : result unit * list element :=
  script env i [].
End Script.

(** Lines 82-88 alone: the rows the two masks select, before the
    search of lines 90-91. *)
Definition masked_view (data : DataFrame) (c : Criteria) : result DataFrame :=
  if mem "All" (selected_categories c) then
    country <- getitem data "Country" Country ;;
    year <- getitem data "Year" Year ;;
    Ok (loc_mask data
          (mask_and (isin country (countries c))
                    (between year (fst (year_range c)) (snd (year_range c)))))
  else
    country <- getitem data "Country" Country ;;
    year <- getitem data "Year" Year ;;
    category <- getitem data "Category" Category ;;
    Ok (loc_mask data
          (mask_and
             (mask_and (isin country (countries c))
                       (between year (fst (year_range c)) (snd (year_range c))))
             (isin category (selected_categories c)))).

(** The same criteria with another category selection. *)
Definition with_categories (c : Criteria) (categories : list string) : Criteria :=
  {| countries := countries c; year_range := year_range c;
     selected_categories := categories; search := search c |}.

(** The table has every column the script assigns: it is the outcome of
    a successful load, or a view of one. *)
Definition well_formed (df : DataFrame) : bool :=
  forallb (fun l => mem l (columns df)) assigned_columns.

(** The pattern has no character that is special in a regular
    expression. *)
Definition plain_text (pat : string) : bool :=
  chars_all (fun c => negb (is_special c)) pat.

(** The row test of the two masks of lines 83-88. *)
Definition row_selected (c : Criteria) (r : Row) : bool :=
  mem (Country r) (countries c)
  && ((fst (year_range c) <=? Year r) && (Year r <=? snd (year_range c)))
  && (mem "All" (selected_categories c) || mem (Category r) (selected_categories c)).

(** The conjunction of the specification, for one record. *)
Definition satisfies (c : Criteria) (r : Row) : Prop :=
  In (Country r) (countries c)
  /\ fst (year_range c) <= Year r <= snd (year_range c)
  /\ (In "All" (selected_categories c) \/ In (Category r) (selected_categories c))
  /\ (search c = "" \/ occurs_ignoring_case (search c) (TestName r)).

(** What a pattern without special characters compiles to. *)
Fixpoint literals (pat : string) : list atom :=
  match pat with
  | EmptyString => []
  | String c rest => Literal c :: literals rest
  end.

(** The test of a plain-text search on one name. *)
Definition name_matches (pat : string) (r : Row) : bool :=
  negb (truthy pat)
  || match parse pat with
     | Some atoms => re_search atoms (TestName r)
     | None => false
     end.

(* ================================================================== *)
(** ** A small table to compute with *)

Definition nuclear_row (i : nat) (country : string) (year depth : Z)
           (category test_name : string) : Row :=
  {| index := i; Latitude := 37; Longitude := -116; Day := 1; Month := 7;
     Year := year; Country := country; Location := "Site, " ++ country;
     Depth := depth; Purpose := "Wr"; TestName := test_name;
     TestType := category; Category := category |}.

Definition sample_data : DataFrame :=
  {| columns := (required_columns ++ assigned_columns)%list;
     rows := [ nuclear_row 0 "USA" 1965 500 "Shaft" "Able";
               nuclear_row 1 "USA" 1970 300 "Atmospheric" "Baker";
               nuclear_row 2 "USSR" 1965 800 "Shaft" "Joe";
               nuclear_row 4 "France" 1966 200 "Shaft" "Gerboise" ] |}.

(** Two instances of the library parameters to evaluate examples with;
    the properties below hold for every instance.  [quotient_mean] is
    the quotient without rounding, which is what float64 gives where sum
    and quotient are exact, as on the sample table.  [sample_histplot]
    refuses two or more rows that all have the same depth. *)
Definition quotient_mean (s : list Z) : scalar :=
  match s with
  | [] => NaN
  | _ :: _ => Frac (Qmake (fold_right Z.add 0 s) (Pos.of_nat (List.length s)))
  end.

Definition sample_histplot (data : list (Z * string)) : result unit :=
  match data with
  | (depth, _) :: _ :: _ =>
      if forallb (fun row => fst row =? depth) data then Raise LinAlgError
      else Ok tt
  | _ => Ok tt
  end.

Definition sample_criteria : Criteria :=
  {| countries := ["USA"; "USSR"]; year_range := (1960, 1968);
     selected_categories := ["All"]; search := "" |}.

Definition raw_line (country : option string) (year : option Z) (depth : option Z)
           (type name : option string) : RawRow :=
  {| Location_Cordinates_Latitude := Some 37;
     Location_Cordinates_Longitude := Some (-116);
     Date_Day := Some 1; Date_Month := Some 7; Date_Year := year;
     WEAPON_SOURCE_COUNTRY := country;
     WEAPON_DEPLOYMENT_LOCATION := Some "Site";
     Location_Cordinates_Depth := depth; Data_Purpose := Some "Wr";
     Data_Name := name; Data_Type := type |}.

(** Five lines; the fourth has no depth. *)
Definition sample_csv : Csv :=
  {| header := required_columns;
     lines := [ raw_line (Some "USA") (Some 1965) (Some 500) (Some "Shaft") (Some "Able");
                raw_line (Some "USA") (Some 1970) (Some 300) (Some "Atmospheric") (Some "Baker");
                raw_line (Some "USSR") (Some 1965) (Some 800) (Some "Shaft") (Some "Joe");
                raw_line (Some "UK") (Some 1957) None (Some "Tower") (Some "Grapple");
                raw_line (Some "France") (Some 1966) (Some 200) (Some "Shaft") (Some "Gerboise") ] |}.

Definition sample_env : Env :=
  {| banner_png := true; nuclear_explosions_csv := Ok sample_csv |}.

(** The banner is there, the data file is not. *)
Definition missing_file_env : Env :=
  {| banner_png := true;
     nuclear_explosions_csv := Raise (FileNotFoundError "nuclear_explosions.csv") |}.

(** The eleven required columns are in the header. *)
Definition all_present (csv : Csv) : Prop :=
  forall label, In label required_columns -> In label (header csv).

(** None of the eleven required cells of the line is empty. *)
Definition no_empty_cell (r : RawRow) : Prop :=
  Location_Cordinates_Latitude r <> None
  /\ Location_Cordinates_Longitude r <> None
  /\ Date_Day r <> None
  /\ Date_Month r <> None
  /\ Date_Year r <> None
  /\ WEAPON_SOURCE_COUNTRY r <> None
  /\ WEAPON_DEPLOYMENT_LOCATION r <> None
  /\ Location_Cordinates_Depth r <> None
  /\ Data_Purpose r <> None
  /\ Data_Name r <> None
  /\ Data_Type r <> None.

(** ** The words of the specification about the summary *)

Definition least (m : Z) (s : list Z) : Prop :=
  In m s /\ forall x, In x s -> m <= x.

Definition greatest (m : Z) (s : list Z) : Prop :=
  In m s /\ forall x, In x s -> x <= m.

(** A mode: a value of the series that no value outnumbers. *)
Definition most_frequent (v : string) (s : list string) : Prop :=
  In v s /\ forall x, (occurrences x s <= occurrences v s)%nat.

Definition distinct_count (n : nat) (s : list string) : Prop :=
  exists values, NoDup values /\ (forall x, In x values <-> In x s)
                 /\ List.length values = n.

(** The full summary of a view; [Series_mean] is the library's mean. *)
Definition full_summary (Series_mean : list Z -> scalar)
           (view : DataFrame) (s : Summary) : Prop :=
  count s = List.length (rows view)
  /\ avg_depth s = Series_mean (map Depth (rows view))
  /\ (exists m, min_depth s = Num m /\ least m (map Depth (rows view)))
  /\ (exists m, max_depth s = Num m /\ greatest m (map Depth (rows view)))
  /\ avg_lat s = Series_mean (map Latitude (rows view))
  /\ avg_lon s = Series_mean (map Longitude (rows view))
  /\ distinct_count (unique_locations s) (map Location (rows view))
  /\ most_frequent (top_country s) (map Country (rows view))
  /\ most_frequent (top_purpose s) (map Purpose (rows view))
  /\ most_frequent (top_type s) (map TestType (rows view)).

(** The nine lines of the "Data Summary" box. *)
Definition summary_box (s : Summary) : list element :=
  map (inside "sidebar.expander(Data Summary)")
      [ st_markdown [VText "**# of Explosions:** "; VNat (count s)];
        st_markdown [VText "**Avg Depth:** "; VFixed2 (avg_depth s); VText " m"];
        st_markdown [VText "**Min Depth:** "; VFixed2 (min_depth s); VText " m"];
        st_markdown [VText "**Max Depth:** "; VFixed2 (max_depth s); VText " m"];
        st_markdown [VText "**Avg Lat/Lon:** "; VFixed2 (avg_lat s);
                     VText ", "; VFixed2 (avg_lon s)];
        st_markdown [VText "**Unique Test Sites:** "; VNat (unique_locations s)];
        st_markdown [VText "**Most Tested Country:** "; VText (top_country s)];
        st_markdown [VText "**Most Common Purpose:** "; VText (top_purpose s)];
        st_markdown [VText "**Most Common Test Type:** "; VText (top_type s)] ].

(* ================================================================== *)
(** ** Further words for the properties below *)

(** The line's cells are the row's values; the location label and the
    category are the two derived columns. *)
Definition row_of_line (r : RawRow) (row : Row) : Prop :=
  Location_Cordinates_Latitude r = Some (Latitude row)
  /\ Location_Cordinates_Longitude r = Some (Longitude row)
  /\ Date_Day r = Some (Day row)
  /\ Date_Month r = Some (Month row)
  /\ Date_Year r = Some (Year row)
  /\ WEAPON_SOURCE_COUNTRY r = Some (Country row)
  /\ (exists place, WEAPON_DEPLOYMENT_LOCATION r = Some place
                    /\ Location row = place ++ ", " ++ Country row)
  /\ Location_Cordinates_Depth r = Some (Depth row)
  /\ Data_Purpose r = Some (Purpose row)
  /\ Data_Name r = Some (TestName row)
  /\ Data_Type r = Some (TestType row)
  /\ Category row = TestType row.

(** A header without the country column. *)
Definition headless_env : Env :=
  {| banner_png := true;
     nuclear_explosions_csv :=
       Ok {| header := ["Date.Year"; "Data.Name"]; lines := [] |} |}.

Definition sample_inputs (page : Page) : Inputs :=
  {| section := page; criteria := sample_criteria; name := "";
     rating := 3; comments := ""; submitted := false |}.

(** A most frequent year of the series together with its number of
    occurrences. *)
Definition peak_year (y : Z) (n : nat) (years : list Z) : Prop :=
  In y years /\ n = occurrencesZ y years
  /\ forall x, (occurrencesZ x years <= n)%nat.

(** The bars of the per-year chart: the years of the series, each once,
    in ascending order, each with its number of occurrences. *)
Definition year_bars (counts : list (Z * nat)) (years : list Z) : Prop :=
  StronglySorted (fun a b => fst a < fst b) counts
  /\ forall y n, In (y, n) counts <-> In y years /\ n = occurrencesZ y years.

(** The step ends without an exception, from any page, with a value that
    meets [post]. *)
Definition completes {A} (m : st A) (post : A -> Prop) : Prop :=
  forall page, exists a page', m page = (Ok a, page') /\ post a.

(** The same criteria with another search text. *)
Definition with_search (c : Criteria) (text : string) : Criteria :=
  {| countries := countries c; year_range := year_range c;
     selected_categories := selected_categories c; search := text |}.

(** The row test of a whole filter call, when the pattern compiles. *)
Definition row_test (str_contains : string -> result (string -> bool))
           (c : Criteria) : result (Row -> bool) :=
  if truthy (search c) then
    matcher <- str_contains (search c) ;;
    Ok (fun r => row_selected c r && matcher (TestName r))
  else Ok (row_selected c).

(** The years lie within the integers Streamlit hands to the browser. *)
Definition years_in_bounds (years : list Z) : Prop :=
  forall y, In y years -> - MAX_SAFE_INTEGER <= y <= MAX_SAFE_INTEGER.

(* ================================================================== *)
(** * Properties *)

(** ** Masks and selections *)

Lemma mem_In (x : string) (xs : list string) : mem x xs = true <-> In x xs.
Proof.
  unfold mem. rewrite existsb_exists. split.
  - intros [y [Hy Heq]]. apply String.eqb_eq in Heq. now subst.
  - intros H. exists x. split; [assumption | apply String.eqb_refl].
Qed.

Lemma mask_and_map {A} (f g : A -> bool) (xs : list A) :
  mask_and (map f xs) (map g xs) = map (fun x => f x && g x) xs.
Proof.
  induction xs as [| x xs IH]; simpl; [reflexivity | now rewrite IH].
Qed.

Lemma select_rows_map {A} (f : A -> bool) (xs : list A) :
  select_rows xs (map f xs) = filter f xs.
Proof.
  induction xs as [| x xs IH]; simpl; [reflexivity |].
  rewrite IH. reflexivity.
Qed.

Lemma isin_map {A} (field : A -> string) (xs : list A) (values : list string) :
  isin (map field xs) values = map (fun x => mem (field x) values) xs.
Proof. unfold isin. now rewrite map_map. Qed.

Lemma between_map {A} (field : A -> Z) (xs : list A) (lo hi : Z) :
  between (map field xs) lo hi
  = map (fun x => (lo <=? field x) && (field x <=? hi)) xs.
Proof. unfold between. now rewrite map_map. Qed.

Lemma filter_filter {A} (f g : A -> bool) (xs : list A) :
  filter f (filter g xs) = filter (fun x => g x && f x) xs.
Proof.
  induction xs as [| x xs IH]; simpl; [reflexivity |].
  destruct (g x); simpl; [destruct (f x) |]; now rewrite IH.
Qed.

Lemma filter_idempotent {A} (f : A -> bool) (xs : list A) :
  filter f (filter f xs) = filter f xs.
Proof.
  rewrite filter_filter. apply filter_ext. intros x. now destruct (f x).
Qed.

Lemma well_formed_mem (df : DataFrame) (label : string) :
  well_formed df = true -> In label assigned_columns ->
  mem label (columns df) = true.
Proof.
  unfold well_formed. rewrite forallb_forall. intros H Hin. now apply H.
Qed.

(** ** The filter in closed form *)

Section FilterFacts.
Variable str_contains : string -> result (string -> bool).

(** What lines 82-91 compute, column checks included. *)
Lemma filtered_data_closed_form (data : DataFrame) (c : Criteria) :
  filtered_data str_contains data c =
  if mem "Country" (columns data) then
    if mem "Year" (columns data) then
      if mem "All" (selected_categories c) || mem "Category" (columns data) then
        if truthy (search c) then
          if mem "Test Name" (columns data) then
            matcher <- str_contains (search c) ;;
            Ok {| columns := columns data;
                  rows := filter (fun r => row_selected c r && matcher (TestName r))
                                 (rows data) |}
          else Raise (KeyError ["Test Name"])
        else Ok {| columns := columns data;
                   rows := filter (row_selected c) (rows data) |}
      else Raise (KeyError ["Category"])
    else Raise (KeyError ["Year"])
  else Raise (KeyError ["Country"]).
Proof.
  unfold filtered_data, getitem, loc_mask, row_selected.
  destruct (mem "All" (selected_categories c)) eqn:Hall; simpl;
    destruct (mem "Country" (columns data)); simpl; try reflexivity;
    destruct (mem "Year" (columns data)); simpl; try reflexivity.
  - rewrite isin_map, between_map, mask_and_map, select_rows_map.
    destruct (truthy (search c)); simpl.
    + destruct (mem "Test Name" (columns data)); simpl; [| reflexivity].
      destruct (str_contains (search c)) as [matcher | e]; simpl; [| reflexivity].
      rewrite map_map, select_rows_map, filter_filter.
      f_equal. f_equal. apply filter_ext. intros r.
      simpl. now rewrite ?orb_true_r, ?andb_true_r.
    + f_equal. f_equal. apply filter_ext. intros r.
      simpl. now rewrite ?orb_true_r, ?andb_true_r.
  - destruct (mem "Category" (columns data)); simpl; [| reflexivity].
    rewrite !isin_map, between_map, !mask_and_map, select_rows_map.
    destruct (truthy (search c)); simpl.
    + destruct (mem "Test Name" (columns data)); simpl; [| reflexivity].
      destruct (str_contains (search c)) as [matcher | e]; simpl; [| reflexivity].
      now rewrite map_map, select_rows_map, filter_filter.
    + reflexivity.
Qed.

(** On a loaded table only the pattern can make the filter fail. *)
Lemma filtered_data_loaded (data : DataFrame) (c : Criteria) :
  well_formed data = true ->
  filtered_data str_contains data c =
  if truthy (search c) then
    matcher <- str_contains (search c) ;;
    Ok {| columns := columns data;
          rows := filter (fun r => row_selected c r && matcher (TestName r))
                         (rows data) |}
  else Ok {| columns := columns data;
             rows := filter (row_selected c) (rows data) |}.
Proof.
  intros Hwf. rewrite filtered_data_closed_form.
  rewrite !(well_formed_mem data _ Hwf) by (simpl; tauto).
  now rewrite orb_true_r.
Qed.
End FilterFacts.

(** ** Plain-text patterns *)

Lemma parse_plain_text (pat : string) :
  plain_text pat = true -> parse pat = Some (literals pat).
Proof.
  induction pat as [| c rest IH]; simpl; [reflexivity |].
  intros H. apply andb_true_iff in H. destruct H as [Hc Hrest].
  apply negb_true_iff in Hc.
  destruct (Ascii.eqb c ".") eqn:Hdot.
  - apply Ascii.eqb_eq in Hdot. subst c. discriminate Hc.
  - rewrite Hc, (IH Hrest). reflexivity.
Qed.

Lemma match_here_literals (pat s : string) :
  match_here (literals pat) s = true <-> exists after, lower s = lower pat ++ after.
Proof.
  revert s. induction pat as [| a pat IH]; intros s; simpl.
  - split; [intros _; now exists (lower s) | reflexivity].
  - destruct s as [| c s]; simpl.
    + split; [discriminate | intros [after H]; discriminate H].
    + rewrite andb_true_iff, Ascii.eqb_eq, IH. split.
      * intros [Hc [after H]]. exists after. now rewrite Hc, H.
      * intros [after H]. injection H as Hc H. split; [now symmetry | now exists after].
Qed.

Lemma re_search_literals (pat s : string) :
  re_search (literals pat) s = true <-> occurs_ignoring_case pat s.
Proof.
  unfold occurs_ignoring_case.
  induction s as [| c s IH].
  - cbn [re_search]. rewrite orb_false_r, match_here_literals. split.
    + intros [after H]. now exists EmptyString, after.
    + intros [before [after H]]. destruct before; [now exists after | discriminate H].
  - cbn [re_search]. rewrite orb_true_iff, match_here_literals, IH. split.
    + intros [[after H] | [before [after H]]].
      * now exists EmptyString, after.
      * exists (String (lower_char c) before), after. simpl. now rewrite H.
    + intros [before [after H]]. destruct before as [| b before].
      * left. now exists after.
      * right. simpl in H. injection H as _ H. now exists before, after.
Qed.

Lemma truthy_false (s : string) : truthy s = false <-> s = "".
Proof. destruct s; simpl; split; congruence. Qed.

Lemma name_matches_iff (pat : string) (r : Row) :
  plain_text pat = true ->
  name_matches pat r = true <-> pat = "" \/ occurs_ignoring_case pat (TestName r).
Proof.
  intros Hplain. unfold name_matches.
  rewrite (parse_plain_text _ Hplain), orb_true_iff, negb_true_iff.
  now rewrite truthy_false, re_search_literals.
Qed.

Lemma row_selected_iff (c : Criteria) (r : Row) :
  row_selected c r = true <->
  In (Country r) (countries c)
  /\ fst (year_range c) <= Year r <= snd (year_range c)
  /\ (In "All" (selected_categories c) \/ In (Category r) (selected_categories c)).
Proof.
  unfold row_selected.
  rewrite !andb_true_iff, orb_true_iff, !mem_In, !Z.leb_le. tauto.
Qed.

Lemma filter_nothing {A} (f : A -> bool) (xs : list A) :
  (forall x, In x xs -> f x = false) -> filter f xs = [].
Proof.
  induction xs as [| x xs IH]; simpl; intros H; [reflexivity |].
  rewrite (H x) by now left. apply IH. intros y Hy. apply H. now right.
Qed.

(** ** What the filter keeps *)

(** C1, amended.  For a loaded table and a search text without
    regular-expression special characters, the filtered view holds
    exactly the records that satisfy the conjunction of the
    specification (country selected, year within the inclusive interval,
    "All" selected or category selected, search empty or occurring in
    the test name when case is ignored), in the table's row order. *)
Theorem filtered_data_plain_search_exact (data : DataFrame) (c : Criteria) :
  well_formed data = true ->
  plain_text (search c) = true ->
  exists keep : Row -> bool,
    (forall r, keep r = true <-> satisfies c r)
    /\ filtered_data contains_ignorecase data c
       = Ok {| columns := columns data; rows := filter keep (rows data) |}.
Proof.
  intros Hwf Hplain.
  exists (fun r => row_selected c r && name_matches (search c) r). split.
  - intros r. unfold satisfies.
    rewrite andb_true_iff, row_selected_iff, (name_matches_iff _ r Hplain). tauto.
  - rewrite (filtered_data_loaded _ _ _ Hwf).
    unfold contains_ignorecase, re_compile, name_matches.
    rewrite (parse_plain_text _ Hplain).
    destruct (truthy (search c)); simpl.
    + reflexivity.
    + f_equal. f_equal. apply filter_ext. intros r. now rewrite andb_true_r.
Qed.

Lemma filtered_data_plain_search_exact_witness :
  exists keep : Row -> bool,
    (forall r, keep r = true <-> satisfies sample_criteria r)
    /\ filtered_data contains_ignorecase sample_data sample_criteria
       = Ok {| columns := columns sample_data;
               rows := filter keep (rows sample_data) |}.
Proof.
  apply (filtered_data_plain_search_exact sample_data sample_criteria);
    reflexivity.
Defined.

(** C1 as stated fails: the search text "." is no part of the name
    "Able", yet the record is kept, because the text is a pattern. *)
Lemma substring_search_counterexample :
  exists view r,
    filtered_data contains_ignorecase sample_data
      {| countries := ["USA"]; year_range := (1960, 1968);
         selected_categories := ["All"]; search := "." |} = Ok view
    /\ In r (rows view)
    /\ ~ satisfies {| countries := ["USA"]; year_range := (1960, 1968);
                      selected_categories := ["All"]; search := "." |} r.
Proof.
  eexists. exists (nuclear_row 0 "USA" 1965 500 "Shaft" "Able").
  split; [reflexivity |]. split; [now left |].
  intros [_ [_ [_ [H | [before [after H]]]]]]; [discriminate H |].
  cbn in H.
  destruct before as [| b0 [| b1 [| b2 [| b3 [| b4 before]]]]];
    cbn in H; discriminate H.
Qed.

(** C3.  When "All" is among the selected categories, the filter is the
    filter without any category condition; the outcome is the same for
    every other selection that contains "All". *)
Theorem all_sentinel_drops_category
        (str_contains : string -> result (string -> bool))
        (data : DataFrame) (c : Criteria) :
  In "All" (selected_categories c) ->
  filtered_data str_contains data c = filter_without_category str_contains data c
  /\ forall others,
       In "All" others ->
       filtered_data str_contains data (with_categories c others)
       = filtered_data str_contains data c.
Proof.
  assert (Hdrop : forall k, In "All" (selected_categories k) ->
            filtered_data str_contains data k
            = filter_without_category str_contains data k).
  { intros k Hall. apply mem_In in Hall.
    unfold filtered_data, filter_without_category. rewrite Hall.
    destruct (getitem data "Country" Country) as [country | e]; [| reflexivity].
    destruct (getitem data "Year" Year) as [year | e]; reflexivity. }
  intros Hall. split; [now apply Hdrop |].
  intros others Hothers.
  rewrite (Hdrop (with_categories c others) Hothers), (Hdrop c Hall).
  reflexivity.
Qed.

Lemma all_sentinel_drops_category_witness :
  filtered_data contains_ignorecase sample_data
    {| countries := ["USA"; "France"]; year_range := (1960, 1970);
       selected_categories := ["All"; "Atmospheric"]; search := "b" |}
  = filter_without_category contains_ignorecase sample_data
      {| countries := ["USA"; "France"]; year_range := (1960, 1970);
         selected_categories := ["All"; "Atmospheric"]; search := "b" |}
  /\ forall others,
       In "All" others ->
       filtered_data contains_ignorecase sample_data
         (with_categories
            {| countries := ["USA"; "France"]; year_range := (1960, 1970);
               selected_categories := ["All"; "Atmospheric"]; search := "b" |}
            others)
       = filtered_data contains_ignorecase sample_data
           {| countries := ["USA"; "France"]; year_range := (1960, 1970);
              selected_categories := ["All"; "Atmospheric"]; search := "b" |}.
Proof.
  apply all_sentinel_drops_category. simpl. now left.
Defined.

(** With "All" and "Atmospheric" selected the Shaft test "Able" stays. *)
Example all_with_another_category :
  option_map (fun view => map index (rows view))
    (match filtered_data contains_ignorecase sample_data
             {| countries := ["USA"; "France"]; year_range := (1960, 1970);
                selected_categories := ["All"; "Atmospheric"]; search := "b" |} with
     | Ok view => Some view
     | Raise _ => None
     end)
  = Some [0; 1; 4]%nat.
Proof. reflexivity. Qed.

Lemma row_selected_monotone (a b : Criteria) (r : Row) :
  incl (countries a) (countries b) ->
  incl (selected_categories a) (selected_categories b) ->
  (forall y, fst (year_range a) <= y <= snd (year_range a) ->
             fst (year_range b) <= y <= snd (year_range b)) ->
  row_selected a r = true -> row_selected b r = true.
Proof.
  intros Hcountries Hcategories Hyears. rewrite !row_selected_iff.
  intros [Hc [Hy Hk]]. split; [now apply Hcountries |].
  split; [now apply Hyears |].
  destruct Hk as [Hk | Hk]; [left | right]; now apply Hcategories.
Qed.

(** Both outcomes are views cut from the same rows: compare the tests. *)
Ltac views_included Hmono :=
  cbn [bind]; intros Hview; injection Hview as <-;
  eexists; split; [reflexivity |];
  cbn [rows]; intros r; rewrite !filter_In, ?andb_true_iff;
  intuition auto.

(** C6, amended.  Let A and B be criteria with A's countries and
    categories among B's and A's year interval inside B's, and let B's
    search be empty or the same as A's.  Whenever the filter under A
    yields a view, the filter under B yields a view too, and every record
    of the first is a record of the second. *)
Theorem filtered_data_monotone
        (str_contains : string -> result (string -> bool))
        (data : DataFrame) (a b : Criteria) (view_a : DataFrame) :
  incl (countries a) (countries b) ->
  incl (selected_categories a) (selected_categories b) ->
  (forall y, fst (year_range a) <= y <= snd (year_range a) ->
             fst (year_range b) <= y <= snd (year_range b)) ->
  search b = "" \/ search b = search a ->
  filtered_data str_contains data a = Ok view_a ->
  exists view_b,
    filtered_data str_contains data b = Ok view_b
    /\ incl (rows view_a) (rows view_b).
Proof.
  intros Hcountries Hcategories Hyears Hsearch.
  pose proof (row_selected_monotone a b) as Hmono.
  rewrite !filtered_data_closed_form.
  destruct (mem "Country" (columns data)); [| discriminate].
  destruct (mem "Year" (columns data)); [| discriminate].
  assert (Hcategory :
            mem "All" (selected_categories a) || mem "Category" (columns data) = true ->
            mem "All" (selected_categories b) || mem "Category" (columns data) = true).
  { rewrite !orb_true_iff, !mem_In. intros [Hall | Hcol]; auto. }
  destruct (mem "All" (selected_categories a) || mem "Category" (columns data));
    [| discriminate].
  rewrite (Hcategory eq_refl).
  destruct Hsearch as [Hb | Hb]; rewrite Hb; cbn [truthy];
    destruct (truthy (search a));
    try (destruct (mem "Test Name" (columns data)); [| discriminate]);
    try (destruct (str_contains (search a)) as [matcher | e]; [| discriminate]);
    views_included Hmono.
Qed.

Lemma filtered_data_monotone_witness :
  exists view_b,
    filtered_data contains_ignorecase sample_data
      {| countries := ["USA"; "USSR"]; year_range := (1960, 1970);
         selected_categories := ["Shaft"; "Atmospheric"]; search := "" |}
    = Ok view_b
    /\ incl [nuclear_row 0 "USA" 1965 500 "Shaft" "Able"] (rows view_b).
Proof.
  apply (filtered_data_monotone contains_ignorecase sample_data
           {| countries := ["USA"]; year_range := (1960, 1968);
              selected_categories := ["Shaft"]; search := "able" |}
           {| countries := ["USA"; "USSR"]; year_range := (1960, 1970);
              selected_categories := ["Shaft"; "Atmospheric"]; search := "" |}
           {| columns := columns sample_data;
              rows := [nuclear_row 0 "USA" 1965 500 "Shaft" "Able"] |}).
  - intros x [<- | []]. now left.
  - intros x [<- | []]. now left.
  - simpl. lia.
  - now left.
  - reflexivity.
Defined.

(** C6 as stated fails: A has no search and B searches "xyz123", which
    the stated condition allows; A keeps a record that B drops. *)
Lemma monotonicity_counterexample :
  exists a b view_a view_b r,
    incl (countries a) (countries b)
    /\ incl (selected_categories a) (selected_categories b)
    /\ (forall y, fst (year_range a) <= y <= snd (year_range a) ->
                  fst (year_range b) <= y <= snd (year_range b))
    /\ (search a <> "" -> search b = search a)
    /\ filtered_data contains_ignorecase sample_data a = Ok view_a
    /\ filtered_data contains_ignorecase sample_data b = Ok view_b
    /\ In r (rows view_a)
    /\ ~ In r (rows view_b).
Proof.
  exists sample_criteria,
         {| countries := ["USA"; "USSR"]; year_range := (1960, 1968);
            selected_categories := ["All"]; search := "xyz123" |}.
  exists {| columns := columns sample_data;
            rows := [nuclear_row 0 "USA" 1965 500 "Shaft" "Able";
                     nuclear_row 2 "USSR" 1965 800 "Shaft" "Joe"] |},
         {| columns := columns sample_data; rows := [] |},
         (nuclear_row 0 "USA" 1965 500 "Shaft" "Able").
  split; [apply incl_refl |]. split; [apply incl_refl |].
  split; [intros y Hy; exact Hy |]. split; [intros H; now elim H |].
  split; [reflexivity |]. split; [reflexivity |].
  split; [now left | intros []].
Qed.

(** C7.  Filtering the filtered view again with the same criteria gives
    the same outcome as filtering once: the same view, or the same
    exception. *)
Theorem filter_twice_same
        (str_contains : string -> result (string -> bool))
        (data : DataFrame) (c : Criteria) :
  filter_twice str_contains data c = filtered_data str_contains data c.
Proof.
  unfold filter_twice. rewrite (filtered_data_closed_form str_contains data c).
  destruct (mem "Country" (columns data)) eqn:Hcountry; [| reflexivity].
  destruct (mem "Year" (columns data)) eqn:Hyear; [| reflexivity].
  destruct (mem "All" (selected_categories c) || mem "Category" (columns data))
    eqn:Hcategory; [| reflexivity].
  destruct (truthy (search c)) eqn:Hsearch.
  - destruct (mem "Test Name" (columns data)) eqn:Hname; [| reflexivity].
    destruct (str_contains (search c)) as [matcher | e] eqn:Hmatcher; [| reflexivity].
    simpl. rewrite filtered_data_closed_form. simpl.
    rewrite Hcountry, Hyear, Hcategory, Hsearch, Hname, Hmatcher. simpl.
    now rewrite filter_idempotent.
  - simpl. rewrite filtered_data_closed_form. simpl.
    rewrite Hcountry, Hyear, Hcategory, Hsearch.
    now rewrite filter_idempotent.
Qed.

(** The filter is the masks of lines 82-88 followed by the search of
    lines 90-91. *)
Lemma filtered_data_stages
      (str_contains : string -> result (string -> bool))
      (data : DataFrame) (c : Criteria) :
  filtered_data str_contains data c
  = (selected <- masked_view data c ;;
     if truthy (search c) then
       names <- getitem selected "Test Name" TestName ;;
       matcher <- str_contains (search c) ;;
       Ok (loc_mask selected (map matcher names))
     else Ok selected).
Proof. reflexivity. Qed.




(** The same with every category criterion and a search in force. *)
Example empty_year_interval_with_search :
  filtered_data contains_ignorecase sample_data
    {| countries := ["USA"; "USSR"; "France"]; year_range := (1966, 1965);
       selected_categories := ["Shaft"]; search := "a" |}
  = Ok {| columns := columns sample_data; rows := [] |}.
Proof. reflexivity. Qed.

(** ** Loading *)

Lemma keep_some_In {A B} (f : A -> option B) (l : list A) (b : B) :
  In b (keep_some f l) <-> exists a, In a l /\ f a = Some b.
Proof.
  induction l as [| a l IH]; simpl.
  - split; [intros [] | intros [a [[] _]]].
  - destruct (f a) as [b' |] eqn:Hfa; simpl; rewrite IH; split.
    + intros [<- | [a' [Hin H]]]; [exists a | exists a']; auto.
    + intros [a' [[<- | Hin] H]]; [left; congruence | right; now exists a'].
    + intros [a' [Hin H]]. exists a'. auto.
    + intros [a' [[<- | Hin] H]]; [congruence | now exists a'].
Qed.

Lemma In_combine_seq {A} (l : list A) (start i : nat) (x : A) :
  In (i, x) (combine (seq start (List.length l)) l)
  <-> (start <= i)%nat /\ nth_error l (i - start) = Some x.
Proof.
  revert start. induction l as [| a l IH]; intros start; simpl.
  - split; [intros [] | intros [_ H]]. now destruct (i - start)%nat.
  - rewrite IH. split.
    + intros [H | [Hle H]].
      * injection H as <- <-. split; [lia |]. now rewrite Nat.sub_diag.
      * split; [lia |]. replace (i - start)%nat with (S (i - S start)) by lia.
        exact H.
    + intros [Hle H]. destruct (i - start)%nat as [| k] eqn:Hk.
      * left. injection H as <-. f_equal. lia.
      * right. split; [lia |]. replace (i - S start)%nat with k by lia. exact H.
Qed.

Lemma non_null_index (i : nat) (r : RawRow) (c : CompleteRow) :
  non_null (i, r) = Some c -> c_index c = i.
Proof.
  unfold non_null, opt_bind. intros H.
  repeat match type of H with
         | match ?o with Some _ => _ | None => _ end = _ =>
             destruct o; [| discriminate H]
         end.
  injection H as <-. reflexivity.
Qed.

Lemma non_null_complete (i : nat) (r : RawRow) :
  (exists c, non_null (i, r) = Some c) <-> no_empty_cell r.
Proof.
  unfold non_null, opt_bind, no_empty_cell.
  destruct r as [lat lon day month year country location depth purpose nm type].
  simpl. split.
  - intros [c H].
    destruct lat, lon, day, month, year, country, location, depth, purpose, nm, type;
      try discriminate H.
    repeat split; discriminate.
  - intros H. decompose [and] H.
    destruct lat, lon, day, month, year, country, location, depth, purpose, nm, type;
      try congruence.
    eexists. reflexivity.
Qed.

Lemma nothing_missing (cols labels : list string) :
  filter (fun l => negb (mem l cols)) labels = [] <->
  (forall l, In l labels -> In l cols).
Proof.
  induction labels as [| l labels IH]; simpl.
  - split; [intros _ l [] | reflexivity].
  - destruct (mem l cols) eqn:Hl; simpl.
    + rewrite IH. apply mem_In in Hl. split.
      * intros H l' [<- | Hin]; auto.
      * intros H l' Hin. apply H. now right.
    + split; [discriminate |]. intros H.
      assert (Hin : In l cols) by (apply H; now left).
      apply mem_In in Hin. congruence.
Qed.

(** C4.  A line of the file that was read is in the loaded table, under
    its index label, exactly when the eleven required columns are in the
    header and none of the line's eleven required cells is empty. *)
Theorem load_completeness (env : Env) (csv : Csv) (i : nat) (r : RawRow) :
  nuclear_explosions_csv env = Ok csv ->
  nth_error (lines csv) i = Some r ->
  exists data page,
    load_data env [] = (Ok data, page)
    /\ ((exists row, In row (rows data) /\ index row = i)
        <-> (all_present csv /\ no_empty_cell r)).
Proof.
  intros Hcsv Hline.
  unfold load_data, load_data_body, read_csv. rewrite Hcsv.
  cbn [bind]. unfold dropna. cbn [raw_columns raw_rows].
  pose proof (nothing_missing (header csv) required_columns) as Hmissing.
  destruct (filter (fun l => negb (mem l (header csv))) required_columns)
    as [| label missing].
  - cbn [bind fst snd ret]. eexists. eexists. split; [reflexivity |].
    cbn [rows]. split.
    + intros [row [Hin Hindex]].
      split; [unfold all_present; now apply Hmissing |].
      apply in_map_iff in Hin. destruct Hin as [c [Hassign Hin]].
      apply keep_some_In in Hin. destruct Hin as [[j r'] [Hin Hc]].
      apply In_combine_seq in Hin. destruct Hin as [_ Hnth].
      rewrite Nat.sub_0_r in Hnth.
      pose proof (non_null_index _ _ _ Hc) as Hj.
      assert (Hji : j = i) by (subst row; simpl in Hindex; congruence).
      rewrite Hji in Hnth.
      assert (r' = r) by congruence. subst r'.
      apply (non_null_complete j). now exists c.
    + intros [_ Hcells].
      apply (non_null_complete i) in Hcells. destruct Hcells as [c Hc].
      exists (assign c). split.
      * apply in_map. apply keep_some_In. exists (i, r). split; [| assumption].
        apply In_combine_seq. split; [lia |]. now rewrite Nat.sub_0_r.
      * simpl. now apply non_null_index in Hc.
  - cbn [bind]. eexists. eexists. split; [reflexivity |].
    cbn [rows empty_frame]. split.
    + intros [row [[] _]].
    + intros [Hpresent _]. unfold all_present in Hpresent.
      apply Hmissing in Hpresent. discriminate Hpresent.
Qed.

Lemma load_completeness_witness :
  exists data page,
    load_data sample_env [] = (Ok data, page)
    /\ ((exists row, In row (rows data) /\ index row = 4%nat)
        <-> (all_present sample_csv
             /\ no_empty_cell
                  (raw_line (Some "France") (Some 1966) (Some 200)
                            (Some "Shaft") (Some "Gerboise")))).
Proof.
  apply (load_completeness sample_env sample_csv 4); reflexivity.
Defined.

(** The sample file loads into the sample table, without its fourth
    line and with the assigned columns. *)
Example load_sample :
  load_data sample_env [] = (Ok sample_data, []).
Proof. reflexivity. Qed.

Lemma load_data_well_formed (file : result Csv) (data : DataFrame) :
  load_data_body file = Ok data -> well_formed data = true.
Proof.
  unfold load_data_body. destruct (read_csv file) as [df | e]; [| discriminate].
  cbn [bind]. destruct (dropna df) as [[cols kept] | e]; [| discriminate].
  cbn [bind fst snd]. intros H. injection H as <-.
  unfold well_formed. cbn [columns].
  assert (Hkeep : forall labels cs l, mem l cs = true ->
                    mem l (fold_left setitem labels cs) = true).
  { induction labels as [| x labels IH]; intros cs l Hl; simpl; [assumption |].
    apply IH. unfold setitem. destruct (mem x cs); [assumption |].
    apply mem_In. apply in_or_app. left. now apply mem_In. }
  assert (Hadd : forall labels cs l, In l labels ->
                   mem l (fold_left setitem labels cs) = true).
  { induction labels as [| x labels IH]; intros cs l Hin; simpl; [destruct Hin |].
    destruct Hin as [<- | Hin]; [| now apply IH].
    apply Hkeep. unfold setitem. destruct (mem x cs) eqn:Hx; [assumption |].
    apply mem_In. apply in_or_app. right. now left. }
  apply forallb_forall. intros l Hl. exact (Hadd assigned_columns cols l Hl).
Qed.

(** ** A failed load *)

Lemma failed_load_page (env : Env) (e : exn) (page : list element) :
  load_data_body (nuclear_explosions_csv env) = Raise e ->
  load_data env page
  = (Ok empty_frame, (page ++ [st_error [VText "Error loading data: "; VExc e]])%list).
Proof. intros H. unfold load_data. now rewrite H. Qed.

(** X4.  Whatever made the load fail, the sidebar set-up is where the
    run ends: the empty table has no "Country" column. *)
Lemma failed_load_stops_run
      (str_contains : string -> result (string -> bool))
      (Series_mean : list Z -> scalar)
      (sns_histplot : list (Z * string) -> result unit)
      (env : Env) (i : Inputs) (e : exn) :
  banner_png env = true ->
  load_data_body (nuclear_explosions_csv env) = Raise e ->
  fst (run str_contains Series_mean sns_histplot env i) = Raise (KeyError ["Country"]).
Proof.
  intros Hbanner Hload. unfold run, script, and_then, lift, Image_open.
  rewrite Hbanner. cbn [draw app]. rewrite (failed_load_page env _ _ Hload).
  reflexivity.
Qed.

(** A header without one of the required columns fails the load too. *)
Example missing_column_fails_load :
  load_data_body (Ok {| header := ["Date.Year"; "Data.Name"]; lines := [] |})
  = Raise (KeyError [ "Location.Cordinates.Latitude";
                      "Location.Cordinates.Longitude"; "Date.Day"; "Date.Month";
                      "WEAPON SOURCE COUNTRY"; "WEAPON DEPLOYMENT LOCATION";
                      "Location.Cordinates.Depth"; "Data.Purpose"; "Data.Type" ]).
Proof. reflexivity. Qed.

(** A table with every column and no row does not get through the
    sidebar either: it offers no country, so the default "USA" and
    "USSR" of the country filter are refused. *)
Example no_row_stops_sidebar :
  fst (sidebar_filters {| columns := assigned_columns; rows := [] |} [])
  = Raise StreamlitDefaultNotInOptionsError.
Proof. reflexivity. Qed.

(** C2, at the failing input.  With the data file missing, [load_data]
    draws the error message and returns the empty table; the run then
    ends with [KeyError] at the country filter, before the filter, the
    summary and the sections. *)
Theorem missing_file_run_raises
        (str_contains : string -> result (string -> bool))
        (Series_mean : list Z -> scalar)
        (sns_histplot : list (Z * string) -> result unit) (i : Inputs) :
  load_data missing_file_env []
  = (Ok empty_frame,
     [st_error [VText "Error loading data: ";
                VExc (FileNotFoundError "nuclear_explosions.csv")]])
  /\ run str_contains Series_mean sns_histplot missing_file_env i
     = (Raise (KeyError ["Country"]),
        [ st_image;
          st_title "Nuclear Explosions Explorer";
          st_markdown [VText "Welcome to Khoa Pham's Nuclear Explosion Research App. Explore historical nuclear test data by country, depth, purpose, and type."];
          st_error [VText "Error loading data: ";
                    VExc (FileNotFoundError "nuclear_explosions.csv")];
          inside "sidebar"
            (st_radio "Navigate" ["Overview"; "Charts"; "Map"; "Details"; "Feedback"]);
          inside "sidebar" (st_title "Filters") ]).
Proof. split; reflexivity. Qed.

(** ** Feedback *)

(** C8.  A submission with a rating from 1 to 5 draws the thanks and the
    rating; it draws the name line exactly when the name is not empty,
    and the comment line exactly when the comment is not empty.  Rating
    4 with no name and the comment "Great tool" draws the thanks, the
    rating 4 and the comment. *)
Theorem acknowledge_echo (name : string) (rating : Z) (comments : string)
        (page : list element) :
  1 <= rating <= 5 ->
  (exists drawn,
      acknowledge name rating comments page = (Ok tt, (page ++ drawn)%list)
      /\ In (st_success "Thank you for your feedback!") drawn
      /\ In (st_write [VText "**Rating:**"; VInt rating]) drawn
      /\ ((exists args, In (st_write (VText "**Submitted by:**" :: args)) drawn)
          <-> name <> "")
      /\ (name <> "" -> In (st_write [VText "**Submitted by:**"; VText name]) drawn)
      /\ ((exists args, In (st_write (VText "**Comment:**" :: args)) drawn)
          <-> comments <> "")
      /\ (comments <> "" -> In (st_write [VText "**Comment:**"; VText comments]) drawn))
  /\ acknowledge "" 4 "Great tool" []
     = (Ok tt, [ st_success "Thank you for your feedback!";
                 st_write [VText "**Rating:**"; VInt 4];
                 st_write [VText "**Comment:**"; VText "Great tool"] ]).
Proof.
  intros _. split; [| reflexivity].
  unfold acknowledge, and_then, draw, ret.
  destruct name as [| n0 name]; destruct comments as [| c0 comments];
    cbn [truthy]; rewrite <- ?app_assoc; cbn [app];
    eexists; (split; [reflexivity |]);
    (split; [now left |]); (split; [right; now left |]);
    repeat split;
    try discriminate; try (intros H; now elim H);
    try (intros [args [H | [H | H]]]; try discriminate H; try destruct H as [H | H];
         try discriminate H; now destruct H);
    try (intros _; eexists; right; right; now left);
    try (intros _; right; right; now left);
    try (intros _; eexists; right; right; right; now left);
    try (intros _; right; right; right; now left).
Qed.

Lemma acknowledge_echo_witness :
  (exists drawn,
      acknowledge "" 4 "Great tool" [] = (Ok tt, ([] ++ drawn)%list)
      /\ In (st_success "Thank you for your feedback!") drawn
      /\ In (st_write [VText "**Rating:**"; VInt 4]) drawn
      /\ ((exists args, In (st_write (VText "**Submitted by:**" :: args)) drawn)
          <-> "" <> "")
      /\ ("" <> "" -> In (st_write [VText "**Submitted by:**"; VText ""]) drawn)
      /\ ((exists args, In (st_write (VText "**Comment:**" :: args)) drawn)
          <-> "Great tool" <> "")
      /\ ("Great tool" <> ""
          -> In (st_write [VText "**Comment:**"; VText "Great tool"]) drawn))
  /\ acknowledge "" 4 "Great tool" []
     = (Ok tt, [ st_success "Thank you for your feedback!";
                 st_write [VText "**Rating:**"; VInt 4];
                 st_write [VText "**Comment:**"; VText "Great tool"] ]).
Proof. apply (acknowledge_echo "" 4 "Great tool" []). lia. Defined.

(** ** Sorting *)

Section SortFacts.
Context {A : Type}.
Variable leb : A -> A -> bool.

Lemma insert_permutation (x : A) (l : list A) :
  Permutation (insert leb x l) (x :: l).
Proof.
  induction l as [| y l IH]; simpl; [apply Permutation_refl |].
  destruct (leb x y); [apply Permutation_refl |].
  apply perm_trans with (y :: x :: l); [now apply perm_skip | apply perm_swap].
Qed.

Lemma sort_by_permutation (l : list A) : Permutation (sort_by leb l) l.
Proof.
  induction l as [| x l IH]; simpl; [apply perm_nil |].
  apply perm_trans with (x :: sort_by leb l);
    [apply insert_permutation | now apply perm_skip].
Qed.

Lemma sort_by_length (l : list A) : List.length (sort_by leb l) = List.length l.
Proof. apply Permutation_length, sort_by_permutation. Qed.

(** Elements of one class, any of which may precede any other, keep
    their order. *)
Lemma insert_filter (p : A -> bool) (x : A) (l : list A) :
  (forall a b, p a = true -> p b = true -> leb a b = true) ->
  filter p (insert leb x l) = filter p (x :: l).
Proof.
  intros Hclass. induction l as [| y l IH]; [reflexivity |].
  simpl. destruct (leb x y) eqn:Hxy; [reflexivity |].
  simpl in *. rewrite IH.
  destruct (p x) eqn:Hx; [| reflexivity].
  destruct (p y) eqn:Hy; [| reflexivity].
  rewrite (Hclass x y Hx Hy) in Hxy. discriminate Hxy.
Qed.

Lemma sort_by_stable (p : A -> bool) (l : list A) :
  (forall a b, p a = true -> p b = true -> leb a b = true) ->
  filter p (sort_by leb l) = filter p l.
Proof.
  intros Hclass. induction l as [| x l IH]; [reflexivity |].
  simpl sort_by. rewrite (insert_filter p x _ Hclass). simpl. now rewrite IH.
Qed.

Hypothesis leb_total : forall a b, leb a b = false -> leb b a = true.
Hypothesis leb_trans :
  forall a b c, leb a b = true -> leb b c = true -> leb a c = true.

Lemma insert_sorted (x : A) (l : list A) :
  StronglySorted (fun a b => leb a b = true) l ->
  StronglySorted (fun a b => leb a b = true) (insert leb x l).
Proof.
  induction 1 as [| y l Hsorted IH Hy]; simpl.
  - constructor; constructor.
  - destruct (leb x y) eqn:Hxy.
    + constructor; [now constructor |].
      constructor; [assumption |].
      rewrite Forall_forall in *. intros z Hz. eauto.
    + constructor; [assumption |].
      rewrite Forall_forall in *. intros z Hz.
      apply (Permutation_in _ (insert_permutation x l)) in Hz.
      destruct Hz as [<- | Hz]; auto.
Qed.

Lemma sort_by_sorted (l : list A) :
  StronglySorted (fun a b => leb a b = true) (sort_by leb l).
Proof.
  induction l as [| x l IH]; simpl; [constructor | now apply insert_sorted].
Qed.
End SortFacts.

Lemma sorted_firstn {A} (R : A -> A -> Prop) (n : nat) (l : list A) :
  StronglySorted R l -> StronglySorted R (firstn n l).
Proof.
  intros H. revert n. induction H as [| x l Hsorted IH Hx]; intros n.
  - rewrite firstn_nil. constructor.
  - destruct n as [| n]; simpl; constructor; [apply IH |].
    rewrite Forall_forall in *. intros y Hy. apply Hx.
    rewrite <- (firstn_skipn n l). apply in_or_app. now left.
Qed.

Lemma sorted_firstn_skipn {A} (R : A -> A -> Prop) (n : nat) (l : list A) :
  StronglySorted R l ->
  forall a b, In a (firstn n l) -> In b (skipn n l) -> R a b.
Proof.
  intros H. revert n. induction H as [| x l Hsorted IH Hx]; intros n a b.
  - rewrite firstn_nil. intros [].
  - destruct n as [| n]; simpl; [intros [] |].
    intros [<- | Ha] Hb.
    + rewrite Forall_forall in Hx. apply Hx.
      rewrite <- (firstn_skipn n l). apply in_or_app. now right.
    + now apply (IH n).
Qed.

Lemma filter_firstn {A} (p : A -> bool) (n : nat) (l : list A) :
  exists k, filter p (firstn n l) = firstn k (filter p l).
Proof.
  revert n. induction l as [| x l IH]; intros n.
  - exists 0%nat. now rewrite firstn_nil.
  - destruct n as [| n]; [now exists 0%nat |].
    destruct (IH n) as [k Hk]. simpl. destruct (p x).
    + exists (S k). simpl. now rewrite Hk.
    + now exists k.
Qed.

Lemma deeper_first_sorted (l : list Row) :
  StronglySorted (fun a b => Depth b <= Depth a) (sort_by deeper_first l).
Proof.
  assert (H : StronglySorted (fun a b => deeper_first a b = true)
                             (sort_by deeper_first l)).
  { apply sort_by_sorted; unfold deeper_first.
    - intros a b Hab. apply Z.leb_gt in Hab. apply Z.leb_le. lia.
    - intros a b c Hab Hbc. apply Z.leb_le in Hab, Hbc. apply Z.leb_le. lia. }
  induction H as [| x s Hs IH Hx]; constructor; [assumption |].
  rewrite Forall_forall in *. intros y Hy. apply Z.leb_le. now apply Hx.
Qed.

Lemma deeper_first_stable (d : Z) (l : list Row) :
  filter (fun r => Depth r =? d) (sort_by deeper_first l)
  = filter (fun r => Depth r =? d) l.
Proof.
  apply sort_by_stable. intros a b Ha Hb. unfold deeper_first.
  apply Z.eqb_eq in Ha, Hb. apply Z.leb_le. lia.
Qed.

(** ** The Details section *)

Lemma take_columns_ok (df : DataFrame) (labels : list string) :
  (forall l, In l labels -> mem l (columns df) = true) ->
  take_columns df labels
  = Ok (map (fun r => (index r, map (fun l => cell l r) labels)) (rows df)).
Proof.
  intros H. unfold take_columns.
  replace (filter (fun l => negb (mem l (columns df))) labels) with (@nil string);
    [reflexivity |].
  symmetry. apply nothing_missing. intros l Hl. apply mem_In. now apply H.
Qed.

Lemma details_page (view : DataFrame) (page : list element) :
  well_formed view = true ->
  rows view <> [] ->
  details view page =
  (Ok tt,
   (page ++
    [ st_header "Top 5 Deepest Explosions";
      st_markdown [VText "This table shows the five deepest nuclear explosions based on filtered data."];
      st_dataframe ["Country"; "Location"; "Year"; "Depth"; "Category"]
        (map (fun r => (index r, [VText (Country r); VText (Location r);
                                  VInt (Year r); VInt (Depth r);
                                  VText (Category r)]))
             (firstn 5 (sort_by deeper_first (rows view))));
      st_subheader "Explosion Test Details";
      st_markdown [VText "A preview of key details for up to 10 nuclear tests matching your current filters."];
      st_dataframe ["Test Name"; "Test Type"; "Purpose"; "Country"; "Year"; "Category"]
        (map (fun r => (index r, [VText (TestName r); VText (TestType r);
                                  VText (Purpose r); VText (Country r);
                                  VInt (Year r); VText (Category r)]))
             (firstn 10 (rows view))) ])%list).
Proof.
  intros Hwf Hrows. unfold details.
  destruct (rows view) as [| r0 rest] eqn:Hview; [now elim Hrows |].
  cbn [List.length Nat.ltb Nat.leb].
  unfold and_then, draw, lift, nlargest_depth.
  rewrite (well_formed_mem view "Depth" Hwf) by (simpl; tauto).
  rewrite !take_columns_ok
    by (intros l Hl; apply (well_formed_mem view l Hwf); simpl in *; tauto).
  cbn [rows columns head]. rewrite Hview.
  rewrite <- !app_assoc. reflexivity.
Qed.

(** C10.  For a loaded, non-empty view the Details section draws the
    table of the rows [top] that [nlargest(5, "Depth")] returns: they are
    in descending order of depth; for each depth, the rows of that depth
    in the table are the first rows of that depth of the view, in the
    view's order; no row left out is deeper than a row of the table; a
    view of fewer than 5 rows is in the table entirely, a view of 5 or
    more gives exactly 5 rows. *)
Theorem deepest_explosions_table (view : DataFrame) :
  well_formed view = true ->
  rows view <> [] ->
  exists top,
    nlargest_depth 5 view = Ok top
    /\ In (st_dataframe ["Country"; "Location"; "Year"; "Depth"; "Category"]
             (map (fun r => (index r, [VText (Country r); VText (Location r);
                                       VInt (Year r); VInt (Depth r);
                                       VText (Category r)]))
                  (rows top)))
          (snd (details view []))
    /\ StronglySorted (fun a b => Depth b <= Depth a) (rows top)
    /\ (forall d, exists k,
           filter (fun r => Depth r =? d) (rows top)
           = firstn k (filter (fun r => Depth r =? d) (rows view)))
    /\ (exists rest,
           Permutation (rows top ++ rest) (rows view)
           /\ forall a b, In a (rows top) -> In b rest -> Depth b <= Depth a)
    /\ ((List.length (rows view) < 5)%nat -> Permutation (rows top) (rows view))
    /\ ((5 <= List.length (rows view))%nat -> List.length (rows top) = 5%nat).
Proof.
  intros Hwf Hrows.
  exists {| columns := columns view;
            rows := firstn 5 (sort_by deeper_first (rows view)) |}.
  cbn [rows].
  split.
  { unfold nlargest_depth.
    now rewrite (well_formed_mem view "Depth" Hwf) by (simpl; tauto). }
  split.
  { rewrite (details_page view [] Hwf Hrows). simpl. tauto. }
  split.
  { apply sorted_firstn, deeper_first_sorted. }
  split.
  { intros d.
    destruct (filter_firstn (fun r => Depth r =? d) 5
                            (sort_by deeper_first (rows view))) as [k Hk].
    exists k. now rewrite Hk, deeper_first_stable. }
  split.
  { exists (skipn 5 (sort_by deeper_first (rows view))). split.
    - rewrite firstn_skipn. apply sort_by_permutation.
    - intros a b Ha Hb.
      apply (sorted_firstn_skipn _ 5 _ (deeper_first_sorted (rows view)) a b Ha Hb). }
  split.
  { intros Hfew. rewrite firstn_all2.
    - apply sort_by_permutation.
    - rewrite sort_by_length. lia. }
  intros Hmany. rewrite length_firstn, sort_by_length. lia.
Qed.

Lemma deepest_explosions_table_witness :
  exists top,
    nlargest_depth 5 sample_data = Ok top
    /\ In (st_dataframe ["Country"; "Location"; "Year"; "Depth"; "Category"]
             (map (fun r => (index r, [VText (Country r); VText (Location r);
                                       VInt (Year r); VInt (Depth r);
                                       VText (Category r)]))
                  (rows top)))
          (snd (details sample_data []))
    /\ StronglySorted (fun a b => Depth b <= Depth a) (rows top)
    /\ (forall d, exists k,
           filter (fun r => Depth r =? d) (rows top)
           = firstn k (filter (fun r => Depth r =? d) (rows sample_data)))
    /\ (exists rest,
           Permutation (rows top ++ rest) (rows sample_data)
           /\ forall a b, In a (rows top) -> In b rest -> Depth b <= Depth a)
    /\ ((List.length (rows sample_data) < 5)%nat
        -> Permutation (rows top) (rows sample_data))
    /\ ((5 <= List.length (rows sample_data))%nat -> List.length (rows top) = 5%nat).
Proof.
  apply (deepest_explosions_table sample_data); [reflexivity | discriminate].
Defined.

(** Rows of equal depth stay in row order, and the sixth row is cut. *)
Example nlargest_ties :
  option_map (map index)
    (match nlargest_depth 5
             {| columns := columns sample_data;
                rows := [ nuclear_row 0 "USA" 1961 300 "Shaft" "a";
                          nuclear_row 1 "USA" 1962 700 "Shaft" "b";
                          nuclear_row 2 "USA" 1963 300 "Shaft" "c";
                          nuclear_row 3 "USA" 1964 700 "Shaft" "d";
                          nuclear_row 4 "USA" 1965 300 "Shaft" "e";
                          nuclear_row 5 "USA" 1966 300 "Shaft" "f" ] |} with
     | Ok top => Some (rows top)
     | Raise _ => None
     end)
  = Some [1; 3; 0; 2; 4]%nat.
Proof. reflexivity. Qed.

(** ** The summary *)

Lemma fold_left_min (l : list Z) (x : Z) :
  least (fold_left Z.min l x) (x :: l).
Proof.
  unfold least. revert x. induction l as [| y l IH]; intros x; simpl.
  - split; [now left | intros z [<- | []]; lia].
  - destruct (IH (Z.min x y)) as [Hin Hle]. split.
    + destruct Hin as [Hin | Hin]; [| now right; right].
      rewrite <- Hin. destruct (Z.min_spec x y) as [[_ ->] | [_ ->]]; auto.
    + intros z [Hz | [Hz | Hz]].
      * specialize (Hle (Z.min x y) (or_introl eq_refl)). lia.
      * specialize (Hle (Z.min x y) (or_introl eq_refl)). lia.
      * apply Hle. now right.
Qed.

Lemma fold_left_max (l : list Z) (x : Z) :
  greatest (fold_left Z.max l x) (x :: l).
Proof.
  unfold greatest. revert x. induction l as [| y l IH]; intros x; simpl.
  - split; [now left | intros z [<- | []]; lia].
  - destruct (IH (Z.max x y)) as [Hin Hle]. split.
    + destruct Hin as [Hin | Hin]; [| now right; right].
      rewrite <- Hin. destruct (Z.max_spec x y) as [[_ ->] | [_ ->]]; auto.
    + intros z [Hz | [Hz | Hz]].
      * specialize (Hle (Z.max x y) (or_introl eq_refl)). lia.
      * specialize (Hle (Z.max x y) (or_introl eq_refl)). lia.
      * apply Hle. now right.
Qed.

Lemma unique_In (x : string) (s : list string) : In x (unique s) <-> In x s.
Proof.
  induction s as [| y s IH]; simpl; [tauto |].
  rewrite filter_In, IH, negb_true_iff, String.eqb_neq.
  destruct (string_dec y x) as [-> | Hne]; tauto.
Qed.

Lemma unique_NoDup (s : list string) : NoDup (unique s).
Proof.
  induction s as [| y s IH]; simpl; constructor.
  - rewrite filter_In, negb_true_iff, String.eqb_neq. tauto.
  - now apply NoDup_filter.
Qed.

Lemma occurrences_absent (x : string) (s : list string) :
  ~ In x s -> occurrences x s = 0%nat.
Proof.
  intros H. unfold occurrences. rewrite filter_nothing; [reflexivity |].
  intros y Hy. apply String.eqb_neq. intros ->. now apply H.
Qed.

Lemma first_max_greatest {L} (s : list (L * nat)) (best : L * nat) :
  In (first_max best s) (best :: s)
  /\ forall y, In y (best :: s) -> (snd y <= snd (first_max best s))%nat.
Proof.
  revert best. induction s as [| x s IH]; intros best; simpl.
  - split; [now left | intros y [<- | []]; lia].
  - destruct (snd best <? snd x)%nat eqn:Hlt.
    + apply Nat.ltb_lt in Hlt. destruct (IH x) as [Hin Hle]. split.
      * right. exact Hin.
      * intros y [<- | Hy]; [| now apply Hle].
        specialize (Hle x (or_introl eq_refl)). lia.
    + apply Nat.ltb_ge in Hlt. destruct (IH best) as [Hin Hle]. split.
      * destruct Hin as [Hin | Hin]; [now left | now right; right].
      * intros y [<- | [<- | Hy]].
        -- apply Hle. now left.
        -- specialize (Hle best (or_introl eq_refl)). lia.
        -- apply Hle. now right.
Qed.

(** The label [idxmax] picks from [value_counts] is a mode. *)
Lemma idxmax_value_counts (s : list string) :
  s <> [] -> exists v, idxmax (value_counts s) = Ok v /\ most_frequent v s.
Proof.
  intros Hs. unfold value_counts.
  set (counted := map (fun v => (v, occurrences v s)) (unique s)).
  set (by_count := fun a b : string * nat => (snd b <=? snd a)%nat).
  pose proof (sort_by_permutation by_count counted) as Hperm.
  destruct (sort_by by_count counted) as [| x rest] eqn:Hsorted.
  - apply Permutation_nil in Hperm. destruct s as [| y s]; [now elim Hs |].
    discriminate Hperm.
  - exists (fst (first_max x rest)). split; [reflexivity |].
    destruct (first_max_greatest rest x) as [Hin Hle].
    apply (Permutation_in _ Hperm) in Hin.
    apply in_map_iff in Hin. destruct Hin as [v [Hv Hin]].
    rewrite <- Hv in *. cbn [fst snd] in *. split.
    + now apply unique_In.
    + intros y. destruct (in_dec string_dec y s) as [Hy | Hy].
      * apply (Hle (y, occurrences y s)).
        apply (Permutation_in _ (Permutation_sym Hperm)).
        apply in_map_iff. exists y. split; [reflexivity | now apply unique_In].
      * rewrite (occurrences_absent y s Hy). lia.
Qed.

Lemma series_min_least (s : list Z) :
  s <> [] -> exists m, series_min s = Num m /\ least m s.
Proof.
  destruct s as [| x s]; [intros H; now elim H | intros _].
  eexists. split; [reflexivity | apply fold_left_min].
Qed.

Lemma series_max_greatest (s : list Z) :
  s <> [] -> exists m, series_max s = Num m /\ greatest m s.
Proof.
  destruct s as [| x s]; [intros H; now elim H | intros _].
  eexists. split; [reflexivity | apply fold_left_max].
Qed.

Lemma nunique_distinct (s : list string) : distinct_count (nunique s) s.
Proof.
  exists (unique s). split; [apply unique_NoDup |].
  split; [intros x; apply unique_In | reflexivity].
Qed.

Lemma map_not_nil {A B} (f : A -> B) (l : list A) : l <> [] -> map f l <> [].
Proof. destruct l; [intros H; now elim H | discriminate]. Qed.

Lemma sidebar_summary_empty (Series_mean : list Z -> scalar)
      (view : DataFrame) (page : list element) :
  rows view = [] ->
  sidebar_summary Series_mean view page
  = (Ok None, (page ++ [st_warning "No data matches the selected filters."])%list).
Proof. intros H. unfold sidebar_summary. now rewrite H. Qed.

Lemma sidebar_summary_nonempty (Series_mean : list Z -> scalar)
      (view : DataFrame) (page : list element) :
  well_formed view = true ->
  rows view <> [] ->
  exists s,
    sidebar_summary Series_mean view page
    = (Ok (Some s), (page ++ summary_box s)%list)
    /\ full_summary Series_mean view s.
Proof.
  intros Hwf Hrows.
  destruct (idxmax_value_counts (map Country (rows view)) (map_not_nil _ _ Hrows))
    as [country [Hcountry Hcountry_mode]].
  destruct (idxmax_value_counts (map Purpose (rows view)) (map_not_nil _ _ Hrows))
    as [purpose [Hpurpose Hpurpose_mode]].
  destruct (idxmax_value_counts (map TestType (rows view)) (map_not_nil _ _ Hrows))
    as [type [Htype Htype_mode]].
  assert (Hcount : (0 <? List.length (rows view))%nat = true).
  { destruct (rows view); [now elim Hrows | reflexivity]. }
  unfold sidebar_summary. rewrite Hcount.
  unfold and_then, lift, getitem, draw, ret.
  rewrite !(well_formed_mem view _ Hwf) by (simpl; tauto).
  rewrite Hcountry, Hpurpose, Htype.
  exists {| count := List.length (rows view);
            avg_depth := Series_mean (map Depth (rows view));
            min_depth := series_min (map Depth (rows view));
            max_depth := series_max (map Depth (rows view));
            avg_lat := Series_mean (map Latitude (rows view));
            avg_lon := Series_mean (map Longitude (rows view));
            unique_locations := nunique (map Location (rows view));
            top_country := country; top_purpose := purpose; top_type := type |}.
  split.
  - unfold summary_box. cbn [map count avg_depth min_depth max_depth avg_lat
                             avg_lon unique_locations top_country top_purpose
                             top_type].
    rewrite <- !app_assoc. reflexivity.
  - unfold full_summary.
    cbn [count avg_depth min_depth max_depth avg_lat avg_lon unique_locations
         top_country top_purpose top_type].
    split; [reflexivity |].
    split; [reflexivity |].
    split; [apply series_min_least; now apply map_not_nil |].
    split; [apply series_max_greatest; now apply map_not_nil |].
    split; [reflexivity |].
    split; [reflexivity |].
    split; [apply nunique_distinct |].
    auto.
Qed.

(** C5.  On a loaded view the summary step returns nothing exactly when
    the view has no row.  With no row it draws the warning and nothing
    else, and no aggregate is computed; with rows it returns the full
    summary: the number of rows, the library's mean of the depth, of the
    latitude and of the longitude column, the least and the greatest
    depth, the number of distinct locations, a mode of country, purpose
    and test type, and it draws the nine lines that show them. *)
Theorem summary_absent_iff_empty (Series_mean : list Z -> scalar)
        (view : DataFrame) (page : list element) :
  well_formed view = true ->
  exists summary page',
    sidebar_summary Series_mean view page = (Ok summary, page')
    /\ (summary = None <-> rows view = [])
    /\ (rows view = [] ->
        page' = (page ++ [st_warning "No data matches the selected filters."])%list)
    /\ (forall s, summary = Some s ->
                  full_summary Series_mean view s
                  /\ page' = (page ++ summary_box s)%list).
Proof.
  intros Hwf. destruct (rows view) as [| r0 rest] eqn:Hview.
  - exists None. eexists. split; [now apply sidebar_summary_empty |].
    split; [tauto |]. split; [reflexivity | discriminate].
  - assert (Hrows : rows view <> []) by (rewrite Hview; discriminate).
    destruct (sidebar_summary_nonempty Series_mean view page Hwf Hrows)
      as [s [Hrun Hfull]].
    exists (Some s). eexists. split; [exact Hrun |].
    split; [split; discriminate |]. split; [discriminate |].
    intros s' Hs. injection Hs as <-. split; [assumption | reflexivity].
Qed.

Lemma summary_absent_iff_empty_witness :
  exists summary page',
    sidebar_summary quotient_mean sample_data [] = (Ok summary, page')
    /\ (summary = None <-> rows sample_data = [])
    /\ (rows sample_data = [] ->
        page' = ([] ++ [st_warning "No data matches the selected filters."])%list)
    /\ (forall s, summary = Some s ->
                  full_summary quotient_mean sample_data s
                  /\ page' = ([] ++ summary_box s)%list).
Proof. apply (summary_absent_iff_empty quotient_mean sample_data []). reflexivity. Defined.

(** The scenario of the specification: two records, greatest depth 800,
    most frequent category "Shaft". *)
Example scenario_summary :
  exists view,
    filtered_data contains_ignorecase sample_data sample_criteria = Ok view
    /\ map index (rows view) = [0; 2]%nat
    /\ option_map (fun s => (count s, max_depth s, top_type s))
         (match fst (sidebar_summary quotient_mean view []) with
          | Ok summary => summary
          | Raise _ => None
          end)
       = Some (2%nat, Num 800, "Shaft").
Proof.
  exists {| columns := columns sample_data;
            rows := [ nuclear_row 0 "USA" 1965 500 "Shaft" "Able";
                      nuclear_row 2 "USSR" 1965 800 "Shaft" "Joe" ] |}.
  repeat split; reflexivity.
Qed.

(** The search "xyz123" matches no name: empty view, no summary. *)
Example scenario_no_match :
  exists view,
    filtered_data contains_ignorecase sample_data
      {| countries := ["USA"; "USSR"]; year_range := (1960, 1968);
         selected_categories := ["All"]; search := "xyz123" |} = Ok view
    /\ rows view = []
    /\ fst (sidebar_summary quotient_mean view []) = Ok None.
Proof.
  exists {| columns := columns sample_data; rows := [] |}.
  repeat split; reflexivity.
Qed.

(* ================================================================== *)
(** * Further properties of the script *)

(** ** Loading, continued *)

(** The two ways [load_data] ends on a file that could be read. *)
Lemma load_data_cases (env : Env) (csv : Csv) (page : list element) :
  nuclear_explosions_csv env = Ok csv ->
  (all_present csv
   /\ load_data env page
      = (Ok {| columns := fold_left setitem assigned_columns (header csv);
               rows := map assign
                         (keep_some non_null
                            (combine (seq 0 (List.length (lines csv))) (lines csv))) |},
         page))
  \/ (~ all_present csv
      /\ exists e,
          load_data env page
          = (Ok empty_frame,
             (page ++ [st_error [VText "Error loading data: "; VExc e]])%list)).
Proof.
  intros Hcsv.
  unfold load_data, load_data_body, read_csv. rewrite Hcsv.
  cbn [bind]. unfold dropna. cbn [raw_columns raw_rows].
  pose proof (nothing_missing (header csv) required_columns) as Hmissing.
  destruct (filter (fun l => negb (mem l (header csv))) required_columns)
    as [| label missing].
  - left. split; [unfold all_present; now apply Hmissing | reflexivity].
  - right. split.
    + intros Hpresent. unfold all_present in Hpresent.
      apply Hmissing in Hpresent. discriminate Hpresent.
    + eexists. reflexivity.
Qed.

Lemma non_null_values (i : nat) (r : RawRow) (c : CompleteRow) :
  non_null (i, r) = Some c -> row_of_line r (assign c).
Proof.
  unfold non_null, opt_bind, row_of_line.
  destruct r as [lat lon day month year country location depth purpose nm type].
  cbn [Location_Cordinates_Latitude Location_Cordinates_Longitude Date_Day
       Date_Month Date_Year WEAPON_SOURCE_COUNTRY WEAPON_DEPLOYMENT_LOCATION
       Location_Cordinates_Depth Data_Purpose Data_Name Data_Type].
  destruct lat, lon, day, month, year, country, location, depth, purpose, nm, type;
    try discriminate.
  intros H. injection H as <-. cbn.
  repeat split. eexists. split; reflexivity.
Qed.

(** X1.  A row of the loaded table carries the cells of the line whose
    index label it has; its location label is the deployment location,
    a comma and the country, and its category is its test type. *)
Theorem loaded_row_values (env : Env) (csv : Csv) (data : DataFrame)
        (page : list element) (i : nat) (r : RawRow) (row : Row) :
  nuclear_explosions_csv env = Ok csv ->
  load_data env [] = (Ok data, page) ->
  nth_error (lines csv) i = Some r ->
  In row (rows data) ->
  index row = i ->
  row_of_line r row.
Proof.
  intros Hcsv Hload Hline Hin Hindex.
  destruct (load_data_cases env csv [] Hcsv) as [[_ H] | [_ [e H]]];
    rewrite H in Hload; injection Hload as <- _.
  - cbn [rows] in Hin.
    apply in_map_iff in Hin. destruct Hin as [c [Hassign Hin]].
    apply keep_some_In in Hin. destruct Hin as [[j r'] [Hin Hc]].
    apply In_combine_seq in Hin. destruct Hin as [_ Hnth].
    rewrite Nat.sub_0_r in Hnth.
    pose proof (non_null_index _ _ _ Hc) as Hj.
    assert (Hji : j = i) by (subst row; simpl in Hindex; congruence).
    rewrite Hji in Hnth. assert (r' = r) by congruence. subst r' row.
    now apply (non_null_values j).
  - destruct Hin.
Qed.

Lemma loaded_row_values_witness :
  row_of_line
    (raw_line (Some "France") (Some 1966) (Some 200) (Some "Shaft") (Some "Gerboise"))
    (nuclear_row 4 "France" 1966 200 "Shaft" "Gerboise").
Proof.
  apply (loaded_row_values sample_env sample_csv sample_data [] 4);
    try reflexivity.
  simpl. tauto.
Defined.

Lemma kept_index_ascending (l : list RawRow) (start : nat) :
  StronglySorted lt
    (map c_index (keep_some non_null (combine (seq start (List.length l)) l)))
  /\ Forall (fun i => (start <= i)%nat)
       (map c_index (keep_some non_null (combine (seq start (List.length l)) l))).
Proof.
  revert start. induction l as [| r l IH]; intros start; cbn [List.length seq combine keep_some].
  - split; constructor.
  - destruct (IH (S start)) as [Hsorted Hfrom].
    destruct (non_null (start, r)) as [c |] eqn:Hc.
    + apply non_null_index in Hc. cbn [map]. rewrite Hc. split.
      * constructor; [assumption |].
        eapply Forall_impl; [| exact Hfrom]. intros i Hi. cbn in Hi. lia.
      * constructor; [lia |].
        eapply Forall_impl; [| exact Hfrom]. intros i Hi. cbn in Hi. lia.
    + split; [assumption |].
      eapply Forall_impl; [| exact Hfrom]. intros i Hi. cbn in Hi. lia.
Qed.

(** X2.  For a file that could be read, the rows of the loaded table are
    in the order of the file's lines: their index labels strictly increase (so no
    label comes twice), and there are no more rows than lines. *)
Theorem loaded_rows_in_file_order (env : Env) (csv : Csv) (data : DataFrame)
        (page : list element) :
  nuclear_explosions_csv env = Ok csv ->
  load_data env [] = (Ok data, page) ->
  StronglySorted lt (map index (rows data))
  /\ (List.length (rows data) <= List.length (lines csv))%nat
  /\ Forall (fun i => (i < List.length (lines csv))%nat) (map index (rows data)).
Proof.
  intros Hcsv Hload.
  destruct (load_data_cases env csv [] Hcsv) as [[_ H] | [_ [e H]]];
    rewrite H in Hload; injection Hload as <- _; cbn [rows empty_frame map].
  - rewrite map_map.
    replace (map (fun c => index (assign c))) with (map c_index) by reflexivity.
    destruct (kept_index_ascending (lines csv) 0) as [Hsorted _].
    split; [assumption |].
    assert (Hin : forall c,
               In c (keep_some non_null
                       (combine (seq 0 (List.length (lines csv))) (lines csv))) ->
               (c_index c < List.length (lines csv))%nat).
    { intros c Hc. apply keep_some_In in Hc. destruct Hc as [[j r] [Hj Hc]].
      apply non_null_index in Hc. apply In_combine_seq in Hj.
      destruct Hj as [_ Hj]. rewrite Nat.sub_0_r in Hj.
      rewrite Hc. apply nth_error_Some. congruence. }
    split.
    + rewrite length_map.
      assert (Hnodup : NoDup (map c_index
                (keep_some non_null
                   (combine (seq 0 (List.length (lines csv))) (lines csv))))).
      { apply StronglySorted_Sorted in Hsorted.
        clear - Hsorted.
        induction Hsorted as [| i l Hs IH Hhd]; constructor; [| assumption].
        intros Hi. apply Sorted_StronglySorted in Hs;
          [| intros x y z; apply Nat.lt_trans].
        assert (Hall : Forall (lt i) l).
        { destruct l as [| j l]; [constructor |].
          inversion Hhd; subst. inversion Hs; subst. constructor; [assumption |].
          eapply Forall_impl; [| eassumption]. intros k Hk. cbn in Hk. lia. }
        rewrite Forall_forall in Hall. specialize (Hall i Hi). lia. }
      pose proof (@NoDup_incl_length _ _ (seq 0 (List.length (lines csv))) Hnodup)
        as Hlen.
      rewrite length_seq, length_map in Hlen. apply Hlen.
      intros j Hj. apply in_map_iff in Hj. destruct Hj as [c [<- Hc]].
      apply in_seq. split; [apply Nat.le_0_l | exact (Hin c Hc)].
    + apply Forall_forall. intros j Hj.
      apply in_map_iff in Hj. destruct Hj as [c [<- Hc]]. now apply Hin.
  - split; [constructor |]. split; [apply Nat.le_0_l | constructor].
Qed.

Lemma loaded_rows_in_file_order_witness :
  StronglySorted lt (map index (rows sample_data))
  /\ (List.length (rows sample_data) <= List.length (lines sample_csv))%nat
  /\ Forall (fun i => (i < List.length (lines sample_csv))%nat)
       (map index (rows sample_data)).
Proof.
  apply (loaded_rows_in_file_order sample_env sample_csv sample_data []);
    reflexivity.
Defined.




(** A header that already has a "Year" column keeps it where it is. *)
Example assignment_overwrites :
  fold_left setitem assigned_columns ["Year"; "Date.Year"]
  = [ "Year"; "Date.Year"; "Latitude"; "Longitude"; "Country"; "Depth";
      "Location"; "Purpose"; "Test Name"; "Test Type"; "Category" ].
Proof. reflexivity. Qed.

Lemma failed_load_stops_run_witness :
  fst (run contains_ignorecase quotient_mean sample_histplot headless_env
           (sample_inputs Feedback))
  = Raise (KeyError ["Country"]).
Proof.
  apply (failed_load_stops_run contains_ignorecase quotient_mean sample_histplot
           headless_env
           (sample_inputs Feedback)
           (KeyError [ "Location.Cordinates.Latitude";
                       "Location.Cordinates.Longitude"; "Date.Day"; "Date.Month";
                       "WEAPON SOURCE COUNTRY"; "WEAPON DEPLOYMENT LOCATION";
                       "Location.Cordinates.Depth"; "Data.Purpose"; "Data.Type" ]));
    reflexivity.
Defined.

(** ** The filter, continued *)

Lemma filter_implied {A} (f g : A -> bool) (xs : list A) :
  (forall x, g x = true -> f x = true) ->
  filter f (filter g xs) = filter g xs.
Proof.
  intros H. rewrite filter_filter. apply filter_ext. intros x.
  destruct (g x) eqn:Hg; [now rewrite (H x Hg) | reflexivity].
Qed.

(** X5.  Whatever the search pattern does, a view that the filter
    returns has the columns of the table, its rows are rows of the table
    in the table's order, and each of them has a selected country, a year
    within the bounds and, unless "All" is selected, a selected
    category. *)
Theorem filtered_view_shape
        (str_contains : string -> result (string -> bool))
        (data view : DataFrame) (c : Criteria) :
  filtered_data str_contains data c = Ok view ->
  columns view = columns data
  /\ exists test : Row -> bool,
      rows view = filter test (rows data)
      /\ forall r, test r = true ->
           In (Country r) (countries c)
           /\ fst (year_range c) <= Year r <= snd (year_range c)
           /\ (In "All" (selected_categories c)
               \/ In (Category r) (selected_categories c)).
Proof.
  rewrite filtered_data_closed_form.
  destruct (mem "Country" (columns data)); [| discriminate].
  destruct (mem "Year" (columns data)); [| discriminate].
  destruct (mem "All" (selected_categories c) || mem "Category" (columns data));
    [| discriminate].
  destruct (truthy (search c)).
  - destruct (mem "Test Name" (columns data)); [| discriminate].
    destruct (str_contains (search c)) as [matcher | e]; [| discriminate].
    cbn [bind]. intros H. injection H as <-. split; [reflexivity |].
    exists (fun r => row_selected c r && matcher (TestName r)).
    split; [reflexivity |]. intros r Hr.
    apply andb_true_iff in Hr. now apply row_selected_iff.
  - intros H. injection H as <-. split; [reflexivity |].
    exists (row_selected c). split; [reflexivity |].
    intros r Hr. now apply row_selected_iff.
Qed.

Lemma filtered_view_shape_witness :
  columns {| columns := columns sample_data;
             rows := [nuclear_row 2 "USSR" 1965 800 "Shaft" "Joe"] |}
  = columns sample_data
  /\ exists test : Row -> bool,
      rows {| columns := columns sample_data;
              rows := [nuclear_row 2 "USSR" 1965 800 "Shaft" "Joe"] |}
      = filter test (rows sample_data)
      /\ forall r, test r = true ->
           In (Country r) ["USA"; "USSR"]
           /\ 1960 <= Year r <= 1968
           /\ (In "All" ["Shaft"] \/ In (Category r) ["Shaft"]).
Proof.
  apply (filtered_view_shape contains_ignorecase sample_data
           {| columns := columns sample_data;
              rows := [nuclear_row 2 "USSR" 1965 800 "Shaft" "Joe"] |}
           {| countries := ["USA"; "USSR"]; year_range := (1960, 1968);
              selected_categories := ["Shaft"]; search := "j.e" |}).
  reflexivity.
Defined.

(** X6.  With no country selected the view of a loaded table is empty,
    provided the search is empty or compiles. *)
Theorem no_country_empty_view
        (str_contains : string -> result (string -> bool))
        (data : DataFrame) (c : Criteria) :
  well_formed data = true ->
  countries c = [] ->
  search c = "" \/ (exists matcher, str_contains (search c) = Ok matcher) ->
  filtered_data str_contains data c = Ok {| columns := columns data; rows := [] |}.
Proof.
  intros Hwf Hcountries Hsearch.
  assert (Hnone : forall r, row_selected c r = false).
  { intros r. unfold row_selected. now rewrite Hcountries. }
  assert (Hplain : filter (row_selected c) (rows data) = []).
  { apply filter_nothing. intros r _. apply Hnone. }
  assert (Hmatched : forall matcher,
             filter (fun r => row_selected c r && matcher (TestName r)) (rows data) = []).
  { intros matcher. apply filter_nothing. intros r _. now rewrite Hnone. }
  rewrite (filtered_data_loaded str_contains data c Hwf).
  destruct Hsearch as [Hempty | [matcher Hmatcher]].
  - rewrite Hempty. simpl. now rewrite Hplain.
  - rewrite Hmatcher. simpl. rewrite Hplain, Hmatched.
    now destruct (truthy (search c)).
Qed.

Lemma no_country_empty_view_witness :
  filtered_data contains_ignorecase sample_data
    {| countries := []; year_range := (1945, 1998);
       selected_categories := ["All"]; search := "a.l" |}
  = Ok {| columns := columns sample_data; rows := [] |}.
Proof.
  apply no_country_empty_view; [reflexivity | reflexivity |].
  right. eexists. reflexivity.
Defined.

(** X7.  A view stays as it is when it is filtered again with criteria
    that are no narrower: countries and categories that include those of
    the first filter, a year interval that includes the first, and a
    search that is empty or the same. *)
Theorem refilter_no_narrower
        (str_contains : string -> result (string -> bool))
        (data view : DataFrame) (a b : Criteria) :
  incl (countries a) (countries b) ->
  incl (selected_categories a) (selected_categories b) ->
  (forall y, fst (year_range a) <= y <= snd (year_range a) ->
             fst (year_range b) <= y <= snd (year_range b)) ->
  search b = "" \/ search b = search a ->
  filtered_data str_contains data a = Ok view ->
  filtered_data str_contains view b = Ok view.
Proof.
  intros Hcountries Hcategories Hyears Hsearch.
  pose proof (row_selected_monotone a b) as Hmono.
  rewrite (filtered_data_closed_form str_contains data a).
  destruct (mem "Country" (columns data)) eqn:Hcountry; [| discriminate].
  destruct (mem "Year" (columns data)) eqn:Hyear; [| discriminate].
  assert (Hcategory :
            mem "All" (selected_categories a) || mem "Category" (columns data) = true ->
            mem "All" (selected_categories b) || mem "Category" (columns data) = true).
  { rewrite !orb_true_iff, !mem_In. intros [Hall | Hcol]; auto. }
  destruct (mem "All" (selected_categories a) || mem "Category" (columns data));
    [| discriminate].
  specialize (Hcategory eq_refl).
  destruct (truthy (search a)) eqn:Ha.
  - destruct (mem "Test Name" (columns data)) eqn:Hname; [| discriminate].
    destruct (str_contains (search a)) as [matcher | e] eqn:Hmatcher; [| discriminate].
    cbn [bind]. intros H. injection H as <-.
    rewrite filtered_data_closed_form. cbn [columns rows].
    rewrite Hcountry, Hyear, Hcategory.
    destruct Hsearch as [Hb | Hb]; rewrite Hb.
    + cbn [truthy]. f_equal. f_equal. apply filter_implied.
      intros r Hr. apply andb_true_iff in Hr. apply Hmono; tauto.
    + rewrite Ha, Hname, Hmatcher. cbn [bind]. f_equal. f_equal.
      apply filter_implied. intros r Hr. apply andb_true_iff in Hr.
      apply andb_true_iff. split; [apply Hmono |]; tauto.
  - intros H. injection H as <-.
    rewrite filtered_data_closed_form. cbn [columns rows].
    rewrite Hcountry, Hyear, Hcategory.
    assert (Hb : truthy (search b) = false).
    { destruct Hsearch as [-> | ->]; [reflexivity | assumption]. }
    rewrite Hb. f_equal. f_equal. apply filter_implied.
    intros r Hr. now apply Hmono.
Qed.

Lemma refilter_no_narrower_witness :
  filtered_data contains_ignorecase
    {| columns := columns sample_data;
       rows := [nuclear_row 0 "USA" 1965 500 "Shaft" "Able"] |}
    {| countries := ["USA"; "USSR"]; year_range := (1960, 1970);
       selected_categories := ["Shaft"; "Atmospheric"]; search := "" |}
  = Ok {| columns := columns sample_data;
          rows := [nuclear_row 0 "USA" 1965 500 "Shaft" "Able"] |}.
Proof.
  apply (refilter_no_narrower contains_ignorecase sample_data
           {| columns := columns sample_data;
              rows := [nuclear_row 0 "USA" 1965 500 "Shaft" "Able"] |}
           {| countries := ["USA"]; year_range := (1960, 1968);
              selected_categories := ["Shaft"]; search := "able" |}).
  - intros x [<- | []]. now left.
  - intros x [<- | []]. now left.
  - simpl. lia.
  - now left.
  - reflexivity.
Defined.

(** ** Counting years *)

Lemma uniqueZ_In (x : Z) (s : list Z) : In x (uniqueZ s) <-> In x s.
Proof.
  induction s as [| y s IH]; simpl; [tauto |].
  rewrite filter_In, IH, negb_true_iff, Z.eqb_neq.
  destruct (Z.eq_dec y x) as [-> | Hne]; tauto.
Qed.

Lemma uniqueZ_NoDup (s : list Z) : NoDup (uniqueZ s).
Proof.
  induction s as [| y s IH]; simpl; constructor.
  - rewrite filter_In, negb_true_iff, Z.eqb_neq. tauto.
  - now apply NoDup_filter.
Qed.

Lemma occurrencesZ_absent (x : Z) (s : list Z) :
  ~ In x s -> occurrencesZ x s = 0%nat.
Proof.
  intros H. unfold occurrencesZ. rewrite filter_nothing; [reflexivity |].
  intros y Hy. apply Z.eqb_neq. intros ->. now apply H.
Qed.

Lemma value_countsZ_permutation (s : list Z) :
  Permutation (value_countsZ s) (map (fun v => (v, occurrencesZ v s)) (uniqueZ s)).
Proof. unfold value_countsZ. apply sort_by_permutation. Qed.

Lemma value_countsZ_In (s : list Z) (y : Z) (n : nat) :
  In (y, n) (value_countsZ s) <-> In y s /\ n = occurrencesZ y s.
Proof.
  split.
  - intros H. apply (Permutation_in _ (value_countsZ_permutation s)) in H.
    apply in_map_iff in H. destruct H as [v [Hv Hin]].
    injection Hv as <- <-. split; [now apply uniqueZ_In | reflexivity].
  - intros [Hin ->].
    apply (Permutation_in _ (Permutation_sym (value_countsZ_permutation s))).
    apply in_map_iff. exists y. split; [reflexivity | now apply uniqueZ_In].
Qed.

(** The year [idxmax] picks and the count [max] returns belong together
    and no year has more. *)
Lemma peak_of_value_counts (s : list Z) :
  s <> [] ->
  exists y n,
    idxmax (value_countsZ s) = Ok y
    /\ max_count (value_countsZ s) = Num (Z.of_nat n)
    /\ peak_year y n s.
Proof.
  intros Hs.
  pose proof (value_countsZ_permutation s) as Hperm.
  pose proof (value_countsZ_In s) as Hin.
  destruct (value_countsZ s) as [| x rest] eqn:Hcounts.
  - apply Permutation_nil in Hperm. destruct s as [| y s]; [now elim Hs |].
    discriminate Hperm.
  - destruct (first_max_greatest rest x) as [Hbest Hle].
    destruct (first_max x rest) as [y n] eqn:Hfirst.
    exists y, n. cbn [idxmax max_count]. rewrite Hfirst. cbn [fst snd].
    split; [reflexivity |]. split; [reflexivity |].
    apply Hin in Hbest. destruct Hbest as [Hy Hn].
    split; [assumption |]. split; [assumption |].
    intros z. destruct (in_dec Z.eq_dec z s) as [Hz | Hz].
    + apply (Hle (z, occurrencesZ z s)). apply Hin. now split.
    + rewrite (occurrencesZ_absent z s Hz). lia.
Qed.

Lemma sorted_distinct_strict (l : list (Z * nat)) :
  StronglySorted (fun a b => (fst a <=? fst b) = true) l ->
  NoDup (map fst l) ->
  StronglySorted (fun a b => fst a < fst b) l.
Proof.
  induction 1 as [| x l Hl IH Hx]; intros Hnodup; constructor.
  - apply IH. cbn [map] in Hnodup. now inversion Hnodup.
  - cbn [map] in Hnodup. inversion Hnodup as [| k ks Hnotin _]; subst.
    rewrite Forall_forall in *. intros y Hy.
    specialize (Hx y Hy). apply Z.leb_le in Hx.
    assert (fst x <> fst y)
      by (intros Heq; apply Hnotin; rewrite Heq; now apply in_map).
    lia.
Qed.

Lemma sort_index_bars (s : list Z) : year_bars (sort_index (value_countsZ s)) s.
Proof.
  unfold year_bars, sort_index.
  set (by_year := fun a b : Z * nat => fst a <=? fst b).
  pose proof (sort_by_permutation by_year (value_countsZ s)) as Hperm.
  split.
  - assert (Hsorted : StronglySorted (fun a b => by_year a b = true)
                        (sort_by by_year (value_countsZ s))).
    { apply sort_by_sorted; unfold by_year.
      - intros a b Hab. apply Z.leb_gt in Hab. apply Z.leb_le. lia.
      - intros a b c Hab Hbc. apply Z.leb_le in Hab, Hbc. apply Z.leb_le. lia. }
    assert (Hnodup : NoDup (map fst (sort_by by_year (value_countsZ s)))).
    { apply (Permutation_NoDup (l := uniqueZ s)); [| apply uniqueZ_NoDup].
      apply Permutation_sym.
      apply perm_trans with (map fst (value_countsZ s));
        [now apply Permutation_map |].
      apply perm_trans
        with (map fst (map (fun v => (v, occurrencesZ v s)) (uniqueZ s)));
        [apply Permutation_map, value_countsZ_permutation |].
      rewrite map_map. cbn [fst]. rewrite map_id. apply Permutation_refl. }
    now apply sorted_distinct_strict.
  - intros y n. rewrite <- value_countsZ_In. split; intros H.
    + now apply (Permutation_in _ Hperm).
    + now apply (Permutation_in _ (Permutation_sym Hperm)).
Qed.

(** ** The sections *)

Lemma combine_map {A B C} (f : A -> B) (g : A -> C) (l : list A) :
  combine (map f l) (map g l) = map (fun x => (f x, g x)) l.
Proof. induction l as [| x l IH]; simpl; [reflexivity | now rewrite IH]. Qed.

(** X8.  The Charts section of a loaded view.  With at most one row it
    draws the notice and nothing else, and no plot is attempted.  With
    more rows the histogram call gets the depth and category of every
    row; when it returns, the page gets the histogram and the bar chart
    whose bars are the view's years, each once and ascending, with the
    number of rows of that year; when it raises, the exception ends the
    section after the header and the first text. *)
Theorem charts_section (sns_histplot : list (Z * string) -> result unit)
        (view : DataFrame) (page : list element) :
  well_formed view = true ->
  ((List.length (rows view) <= 1)%nat ->
   charts sns_histplot view page
   = (Ok tt,
      (page ++ [st_warning "Not enough data to generate charts. Try adjusting your filters."])%list))
  /\ ((1 < List.length (rows view))%nat ->
      (sns_histplot (map (fun r => (Depth r, Category r)) (rows view)) = Ok tt ->
       exists about1 about2 counts,
         charts sns_histplot view page
         = (Ok tt,
            (page ++
             [ st_header "Explosion Depth Distribution";
               inside "col1" (st_markdown about1);
               inside "col1"
                 (st_pyplot (histplot (map (fun r => (Depth r, Category r)) (rows view))));
               inside "col2" (st_markdown about2);
               inside "col2" (st_pyplot (bar_plot counts)) ])%list)
         /\ year_bars counts (map Year (rows view)))
      /\ (forall e,
            sns_histplot (map (fun r => (Depth r, Category r)) (rows view)) = Raise e ->
            exists about1,
              charts sns_histplot view page
              = (Raise e,
                 (page ++ [ st_header "Explosion Depth Distribution";
                            inside "col1" (st_markdown about1) ])%list))).
Proof.
  intros Hwf. unfold charts. split; intros Hcount.
  - apply Nat.ltb_ge in Hcount. now rewrite Hcount.
  - apply Nat.ltb_lt in Hcount. rewrite Hcount.
    unfold and_then, draw, lift, getitem.
    rewrite !(well_formed_mem view _ Hwf) by (simpl; tauto).
    rewrite combine_map. split.
    + intros Hplot. rewrite Hplot, <- !app_assoc. cbn [app].
      do 3 eexists. split; [reflexivity | apply sort_index_bars].
    + intros e Hplot. rewrite Hplot, <- !app_assoc. cbn [app].
      eexists. reflexivity.
Qed.

Lemma charts_section_witness :
  ((List.length (rows sample_data) <= 1)%nat ->
   charts sample_histplot sample_data []
   = (Ok tt,
      ([] ++ [st_warning "Not enough data to generate charts. Try adjusting your filters."])%list))
  /\ ((1 < List.length (rows sample_data))%nat ->
      (sample_histplot (map (fun r => (Depth r, Category r)) (rows sample_data)) = Ok tt ->
       exists about1 about2 counts,
         charts sample_histplot sample_data []
         = (Ok tt,
            ([] ++
             [ st_header "Explosion Depth Distribution";
               inside "col1" (st_markdown about1);
               inside "col1"
                 (st_pyplot (histplot (map (fun r => (Depth r, Category r))
                                           (rows sample_data))));
               inside "col2" (st_markdown about2);
               inside "col2" (st_pyplot (bar_plot counts)) ])%list)
         /\ year_bars counts (map Year (rows sample_data)))
      /\ (forall e,
            sample_histplot (map (fun r => (Depth r, Category r)) (rows sample_data))
            = Raise e ->
            exists about1,
              charts sample_histplot sample_data []
              = (Raise e,
                 ([] ++ [ st_header "Explosion Depth Distribution";
                          inside "col1" (st_markdown about1) ])%list))).
Proof. apply (charts_section sample_histplot sample_data []). reflexivity. Defined.

(** Two rows of one depth: the histogram call of the sample instance
    raises and the section ends with its exception. *)
Example charts_flat_depths :
  fst (charts sample_histplot
         {| columns := columns sample_data;
            rows := [ nuclear_row 0 "USA" 1965 500 "Shaft" "Able";
                      nuclear_row 2 "USSR" 1966 500 "Shaft" "Joe" ] |} [])
  = Raise LinAlgError.
Proof. reflexivity. Qed.

(** The bars of the sample table: 1965 twice, 1966 and 1970 once. *)
Example sample_bars :
  sort_index (value_countsZ (map Year (rows sample_data)))
  = [(1965, 2%nat); (1966, 1%nat); (1970, 1%nat)].
Proof. reflexivity. Qed.

(** X9.  The Overview section of a loaded view with rows, given the
    summary: after the header and the count line it shows the greatest
    and the least depth of the summary and a peak year, a year of the
    view that no year outnumbers, with its number of rows. *)
Theorem overview_peak_year (view : DataFrame) (c : Criteria) (s : Summary)
        (page : list element) :
  well_formed view = true ->
  rows view <> [] ->
  exists y n,
    overview view c (Some s) page
    = (Ok tt,
       (page ++
        [ st_header "Overview";
          st_write [VText "Showing "; VNat (List.length (rows view));
                    VText " explosions from "; VInt (fst (year_range c));
                    VText " to "; VInt (snd (year_range c))];
          inside "col1" (st_metric [VText "Deepest Explosion (m)"]
                                   [VFixed2 (max_depth s)]);
          inside "col2" (st_metric [VText "Shallowest Explosion (m)"]
                                   [VFixed2 (min_depth s)]);
          inside "col3" (st_metric [VText "Peak Year ("; VInt y; VText ")"]
                                   [VScalar (Num (Z.of_nat n)); VText " tests"]) ])%list)
    /\ peak_year y n (map Year (rows view)).
Proof.
  intros Hwf Hrows.
  destruct (peak_of_value_counts (map Year (rows view)) (map_not_nil _ _ Hrows))
    as [y [n [Hidx [Hmax Hpeak]]]].
  exists y, n. split; [| assumption].
  unfold overview, and_then, draw, lift, getitem.
  rewrite !(well_formed_mem view _ Hwf) by (simpl; tauto).
  rewrite Hidx, Hmax, <- !app_assoc. reflexivity.
Qed.

Lemma overview_peak_year_witness :
  exists y n,
    overview sample_data sample_criteria
      (Some {| count := 4; avg_depth := Frac (Qmake 450 1); min_depth := Num 200;
               max_depth := Num 800; avg_lat := Frac (Qmake 37 1);
               avg_lon := Frac (Qmake (-116) 1); unique_locations := 3;
               top_country := "USA"; top_purpose := "Wr"; top_type := "Shaft" |}) []
    = (Ok tt,
       ([] ++
        [ st_header "Overview";
          st_write [VText "Showing "; VNat (List.length (rows sample_data));
                    VText " explosions from "; VInt (fst (year_range sample_criteria));
                    VText " to "; VInt (snd (year_range sample_criteria))];
          inside "col1" (st_metric [VText "Deepest Explosion (m)"] [VFixed2 (Num 800)]);
          inside "col2" (st_metric [VText "Shallowest Explosion (m)"] [VFixed2 (Num 200)]);
          inside "col3" (st_metric [VText "Peak Year ("; VInt y; VText ")"]
                                   [VScalar (Num (Z.of_nat n)); VText " tests"]) ])%list)
    /\ peak_year y n (map Year (rows sample_data)).
Proof.
  apply (overview_peak_year sample_data sample_criteria
           {| count := 4; avg_depth := Frac (Qmake 450 1); min_depth := Num 200;
              max_depth := Num 800; avg_lat := Frac (Qmake 37 1);
              avg_lon := Frac (Qmake (-116) 1); unique_locations := 3;
              top_country := "USA"; top_purpose := "Wr"; top_type := "Shaft" |} []);
    [reflexivity | discriminate].
Defined.

(** The Details section of a loaded view with rows draws, after
    the table of the deepest rows, the preview table: the first ten rows
    of the view, or all of them when there are fewer, in the view's
    order, under their index labels, with test name, test type, purpose,
    country, year and category. *)
Theorem details_preview (view : DataFrame) (page : list element) :
  well_formed view = true ->
  rows view <> [] ->
  exists intro deepest about preview,
    details view page
    = (Ok tt,
       (page ++
        [ st_header "Top 5 Deepest Explosions"; intro; deepest;
          st_subheader "Explosion Test Details"; about;
          st_dataframe ["Test Name"; "Test Type"; "Purpose"; "Country"; "Year"; "Category"]
                       preview ])%list)
    /\ preview
       = map (fun r => (index r, [VText (TestName r); VText (TestType r);
                                  VText (Purpose r); VText (Country r);
                                  VInt (Year r); VText (Category r)]))
             (firstn 10 (rows view))
    /\ List.length preview = Nat.min 10 (List.length (rows view)).
Proof.
  intros Hwf Hrows. do 4 eexists. split; [| split].
  - apply (details_page view page Hwf Hrows).
  - reflexivity.
  - now rewrite length_map, length_firstn.
Qed.

Lemma details_preview_witness :
  exists intro deepest about preview,
    details sample_data []
    = (Ok tt,
       ([] ++
        [ st_header "Top 5 Deepest Explosions"; intro; deepest;
          st_subheader "Explosion Test Details"; about;
          st_dataframe ["Test Name"; "Test Type"; "Purpose"; "Country"; "Year"; "Category"]
                       preview ])%list)
    /\ preview
       = map (fun r => (index r, [VText (TestName r); VText (TestType r);
                                  VText (Purpose r); VText (Country r);
                                  VInt (Year r); VText (Category r)]))
             (firstn 10 (rows sample_data))
    /\ List.length preview = Nat.min 10 (List.length (rows sample_data)).
Proof.
  apply (details_preview sample_data []); [reflexivity | discriminate].
Defined.

(** X10.  A view without rows never makes a section read a column or
    call a library aggregate or plot: the Charts, Map and Details
    sections each draw their notice and nothing else, and the Overview
    without a summary draws its header and the count line, whatever
    columns the view has. *)
Theorem empty_view_notices
        (Series_mean : list Z -> scalar)
        (sns_histplot : list (Z * string) -> result unit)
        (view : DataFrame) (c : Criteria) (page : list element) :
  rows view = [] ->
  charts sns_histplot view page
  = (Ok tt,
     (page ++ [st_warning "Not enough data to generate charts. Try adjusting your filters."])%list)
  /\ map_section Series_mean view page
     = (Ok tt, (page ++ [st_warning "No map data to display."])%list)
  /\ details view page
     = (Ok tt,
        (page ++ [st_warning "No test details available for selected filters."])%list)
  /\ overview view c None page
     = (Ok tt,
        (page ++ [ st_header "Overview";
                   st_write [VText "Showing "; VNat 0; VText " explosions from ";
                             VInt (fst (year_range c)); VText " to ";
                             VInt (snd (year_range c))] ])%list).
Proof.
  intros Hrows. unfold charts, map_section, details, overview. rewrite Hrows.
  cbn [List.length Nat.ltb Nat.leb]. unfold and_then, draw, ret.
  rewrite <- !app_assoc. repeat split.
Qed.

Lemma empty_view_notices_witness :
  charts sample_histplot empty_frame []
  = (Ok tt,
     ([] ++ [st_warning "Not enough data to generate charts. Try adjusting your filters."])%list)
  /\ map_section quotient_mean empty_frame []
     = (Ok tt, ([] ++ [st_warning "No map data to display."])%list)
  /\ details empty_frame []
     = (Ok tt,
        ([] ++ [st_warning "No test details available for selected filters."])%list)
  /\ overview empty_frame sample_criteria None []
     = (Ok tt,
        ([] ++ [ st_header "Overview";
                 st_write [VText "Showing "; VNat 0; VText " explosions from ";
                           VInt (fst (year_range sample_criteria)); VText " to ";
                           VInt (snd (year_range sample_criteria))] ])%list).
Proof.
  apply (empty_view_notices quotient_mean sample_histplot empty_frame
           sample_criteria []).
  reflexivity.
Defined.

(** ** The sidebar filters *)

Lemma string_compare_trans (a b c : string) :
  String.compare a b <> Gt -> String.compare b c <> Gt -> String.compare a c <> Gt.
Proof.
  revert b c. induction a as [| x a IH]; intros [| y b] [| z c]; simpl;
    try congruence.
  unfold Ascii.compare.
  destruct (N.compare_spec (N_of_ascii x) (N_of_ascii y)) as [Hxy | Hxy | Hxy];
    destruct (N.compare_spec (N_of_ascii y) (N_of_ascii z)) as [Hyz | Hyz | Hyz];
    destruct (N.compare_spec (N_of_ascii x) (N_of_ascii z)) as [Hxz | Hxz | Hxz];
    try congruence; try lia; try apply IH.
Qed.

Lemma string_leb_trans (a b c : string) :
  String.leb a b = true -> String.leb b c = true -> String.leb a c = true.
Proof.
  unfold String.leb. intros Hab Hbc.
  pose proof (string_compare_trans a b c) as H.
  destruct (String.compare a b); destruct (String.compare b c);
    destruct (String.compare a c); try discriminate; try reflexivity;
    exfalso; apply H; congruence.
Qed.

Lemma sorted_strings (xs : list string) :
  StronglySorted (fun a b => String.leb a b = true) (sorted xs)
  /\ Permutation (sorted xs) xs.
Proof.
  unfold sorted. split; [| apply sort_by_permutation].
  apply sort_by_sorted.
  - intros a b Hab. destruct (String.leb_total a b) as [H | H]; congruence.
  - apply string_leb_trans.
Qed.

Lemma multiselect_offered (label : string) (options default : list string)
      (page : list element) :
  (forall d, In d default -> In d options) ->
  multiselect label options default page
  = (Ok tt, (page ++ [inside "sidebar" (st_multiselect label options default)])%list).
Proof.
  intros H. unfold multiselect.
  replace (forallb (fun d => mem d options) default) with true; [reflexivity |].
  symmetry. apply forallb_forall. intros d Hd. apply mem_In. now apply H.
Qed.

Lemma multiselect_refused (label : string) (options default : list string)
      (page : list element) :
  ~ (forall d, In d default -> In d options) ->
  multiselect label options default page
  = (Raise StreamlitDefaultNotInOptionsError, page).
Proof.
  intros H. unfold multiselect.
  destruct (forallb (fun d => mem d options) default) eqn:Hall; [| reflexivity].
  elim H. intros d Hd. apply mem_In.
  rewrite forallb_forall in Hall. now apply Hall.
Qed.

Lemma slider_in_bounds (label : string) (lo hi : Z) (page : list element) :
  - MAX_SAFE_INTEGER <= lo <= MAX_SAFE_INTEGER ->
  - MAX_SAFE_INTEGER <= hi <= MAX_SAFE_INTEGER ->
  slider label lo hi (1960, 1980) page
  = (Ok tt, (page ++ [inside "sidebar" (st_slider label lo hi [1960; 1980])])%list).
Proof.
  intros Hlo Hhi. unfold slider. cbn [fst snd].
  assert (Hmax : MAX_SAFE_INTEGER = 9007199254740991) by reflexivity.
  destruct ((- MAX_SAFE_INTEGER <=? Z.min 1960 (Z.min lo hi))
            && (Z.max 1980 (Z.max lo hi) <=? MAX_SAFE_INTEGER)) eqn:Hcheck;
    [reflexivity |].
  apply andb_false_iff in Hcheck. rewrite !Z.leb_gt in Hcheck.
  rewrite Hmax in *. lia.
Qed.

(** X11.  The sidebar set-up on a loaded table.  When "USA" and "USSR"
    are countries of the table and its years are within the integers of
    the browser, it completes and passes to the widgets: the countries
    of the table, each once; the least and the greatest year of the
    table as the bounds of the year slider; and as categories "All"
    followed by the categories of the table, each once, in ascending
    order.  When "USA" or "USSR" is no country of the table, the country
    filter refuses its default and the set-up ends there. *)
Theorem sidebar_filters_options (data : DataFrame) (page : list element) :
  well_formed data = true ->
  (In "USA" (map Country (rows data)) ->
   In "USSR" (map Country (rows data)) ->
   years_in_bounds (map Year (rows data)) ->
   exists country_options min_year max_year category_options,
     sidebar_filters data page
     = (Ok tt,
        (page ++
         [ inside "sidebar" (st_title "Filters");
           inside "sidebar"
             (st_multiselect "Select countries:" country_options ["USA"; "USSR"]);
           inside "sidebar"
             (st_slider "Select year range:" min_year max_year [1960; 1980]);
           inside "sidebar"
             (st_multiselect "Select Categories:" ("All" :: category_options) ["All"]);
           inside "sidebar" (st_text_input "Search by Test Name") ])%list)
     /\ NoDup country_options
     /\ (forall x, In x country_options <-> In x (map Country (rows data)))
     /\ least min_year (map Year (rows data))
     /\ greatest max_year (map Year (rows data))
     /\ StronglySorted (fun a b => String.leb a b = true) category_options
     /\ NoDup category_options
     /\ (forall x, In x category_options <-> In x (map Category (rows data))))
  /\ (~ (In "USA" (map Country (rows data)) /\ In "USSR" (map Country (rows data))) ->
      sidebar_filters data page
      = (Raise StreamlitDefaultNotInOptionsError,
         (page ++ [inside "sidebar" (st_title "Filters")])%list)).
Proof.
  intros Hwf. split.
  - intros Husa Hussr Hbounds.
    assert (Hrows : rows data <> []).
    { intros Hnil. rewrite Hnil in Husa. destruct Husa. }
    destruct (series_min_least (map Year (rows data)) (map_not_nil _ _ Hrows))
      as [lo [Hlo Hleast]].
    destruct (series_max_greatest (map Year (rows data)) (map_not_nil _ _ Hrows))
      as [hi [Hhi Hgreatest]].
    destruct (sorted_strings (unique (map Category (rows data)))) as [Hsorted Hperm].
    exists (unique (map Country (rows data))), lo, hi,
           (sorted (unique (map Category (rows data)))).
    split.
    { unfold sidebar_filters, and_then, draw, lift, getitem.
      rewrite !(well_formed_mem data _ Hwf) by (simpl; tauto).
      rewrite multiselect_offered
        by (intros d [<- | [<- | []]]; now apply unique_In).
      rewrite Hlo, Hhi. cbn [int].
      rewrite slider_in_bounds
        by (apply Hbounds; first [apply (proj1 Hleast) | apply (proj1 Hgreatest)]).
      rewrite multiselect_offered by (intros d [<- | []]; now left).
      rewrite <- !app_assoc. reflexivity. }
    split; [apply unique_NoDup |].
    split; [intros x; apply unique_In |].
    split; [assumption |]. split; [assumption |]. split; [assumption |].
    split.
    + apply (Permutation_NoDup (Permutation_sym Hperm)), unique_NoDup.
    + intros x. rewrite <- (unique_In x (map Category (rows data))). split; intros H.
      * now apply (Permutation_in _ Hperm).
      * now apply (Permutation_in _ (Permutation_sym Hperm)).
  - intros Hmissing.
    unfold sidebar_filters, and_then, draw, lift, getitem.
    rewrite !(well_formed_mem data _ Hwf) by (simpl; tauto).
    rewrite multiselect_refused; [reflexivity |].
    intros Hall. apply Hmissing.
    split; apply unique_In; apply Hall; simpl; tauto.
Qed.

Lemma sidebar_filters_options_witness :
  (In "USA" (map Country (rows sample_data)) ->
   In "USSR" (map Country (rows sample_data)) ->
   years_in_bounds (map Year (rows sample_data)) ->
   exists country_options min_year max_year category_options,
     sidebar_filters sample_data []
     = (Ok tt,
        ([] ++
         [ inside "sidebar" (st_title "Filters");
           inside "sidebar"
             (st_multiselect "Select countries:" country_options ["USA"; "USSR"]);
           inside "sidebar"
             (st_slider "Select year range:" min_year max_year [1960; 1980]);
           inside "sidebar"
             (st_multiselect "Select Categories:" ("All" :: category_options) ["All"]);
           inside "sidebar" (st_text_input "Search by Test Name") ])%list)
     /\ NoDup country_options
     /\ (forall x, In x country_options <-> In x (map Country (rows sample_data)))
     /\ least min_year (map Year (rows sample_data))
     /\ greatest max_year (map Year (rows sample_data))
     /\ StronglySorted (fun a b => String.leb a b = true) category_options
     /\ NoDup category_options
     /\ (forall x, In x category_options <-> In x (map Category (rows sample_data))))
  /\ (~ (In "USA" (map Country (rows sample_data))
         /\ In "USSR" (map Country (rows sample_data))) ->
      sidebar_filters sample_data []
      = (Raise StreamlitDefaultNotInOptionsError,
         ([] ++ [inside "sidebar" (st_title "Filters")])%list)).
Proof. apply (sidebar_filters_options sample_data []). reflexivity. Defined.

(** What the sample table passes to the widgets. *)
Example sample_sidebar :
  fst (sidebar_filters sample_data []) = Ok tt
  /\ In (inside "sidebar"
           (st_multiselect "Select Categories:" ["All"; "Atmospheric"; "Shaft"] ["All"]))
        (snd (sidebar_filters sample_data []))
  /\ In (inside "sidebar" (st_slider "Select year range:" 1965 1970 [1960; 1980]))
        (snd (sidebar_filters sample_data [])).
Proof. split; [reflexivity |]. split; simpl; tauto. Qed.

(** A table of French tests only: the default countries are no option. *)
Example french_table_refused :
  fst (sidebar_filters
         {| columns := columns sample_data;
            rows := [ nuclear_row 0 "France" 1966 200 "Shaft" "Gerboise";
                      nuclear_row 1 "France" 1967 300 "Shaft" "Rubis" ] |} [])
  = Raise StreamlitDefaultNotInOptionsError.
Proof. reflexivity. Qed.

(** ** A whole run *)

Lemma completes_ret {A} (a : A) (post : A -> Prop) :
  post a -> completes (ret a) post.
Proof. intros H page. now exists a, page. Qed.
















(** The two tables of a run on the sample file with Details chosen:
    the deepest rows, then the preview, by index label. *)
Example sample_run_tables :
  flat_map (fun e => match e with
                     | st_dataframe _ table => [map fst table]
                     | _ => []
                     end)
           (snd (run contains_ignorecase quotient_mean sample_histplot sample_env
                     (sample_inputs Details)))
  = [ [2; 0]%nat; [0; 2]%nat ].
Proof. reflexivity. Qed.

(** A file of French tests only loads, and the run ends at the country
    filter. *)
Example french_file_refused :
  fst (run contains_ignorecase quotient_mean sample_histplot
           {| banner_png := true;
              nuclear_explosions_csv :=
                Ok {| header := required_columns;
                      lines := [ raw_line (Some "France") (Some 1966) (Some 200)
                                          (Some "Shaft") (Some "Gerboise");
                                 raw_line (Some "France") (Some 1967) (Some 300)
                                          (Some "Shaft") (Some "Rubis") ] |} |}
           (sample_inputs Overview))
  = Raise StreamlitDefaultNotInOptionsError.
Proof. reflexivity. Qed.

(** ** The filter: case and order *)

Lemma lower_char_idempotent (c : ascii) : lower_char (lower_char c) = lower_char c.
Proof. destruct c as [[] [] [] [] [] [] [] []]; reflexivity. Qed.

Lemma is_special_lower_char (c : ascii) : is_special (lower_char c) = is_special c.
Proof. destruct c as [[] [] [] [] [] [] [] []]; reflexivity. Qed.

Lemma plain_text_lower (pat : string) : plain_text (lower pat) = plain_text pat.
Proof.
  unfold plain_text. induction pat as [| c pat IH]; simpl; [reflexivity |].
  now rewrite is_special_lower_char, IH.
Qed.

Lemma truthy_lower (pat : string) : truthy (lower pat) = truthy pat.
Proof. now destruct pat. Qed.

Lemma match_here_lower (pat s : string) :
  match_here (literals (lower pat)) s = match_here (literals pat) s.
Proof.
  revert s. induction pat as [| c pat IH]; intros s; simpl; [reflexivity |].
  destruct s as [| d s]; [reflexivity |].
  now rewrite lower_char_idempotent, IH.
Qed.

Lemma re_search_lower (pat s : string) :
  re_search (literals (lower pat)) s = re_search (literals pat) s.
Proof.
  induction s as [| d s IH]; cbn [re_search]; rewrite match_here_lower;
    [reflexivity | now rewrite IH].
Qed.

(** X13.  The search ignores the case of the search text: for a text
    without special characters, typing it in lower case gives the same
    outcome of the filter, on any table. *)
Theorem search_text_case_ignored (data : DataFrame) (c : Criteria) :
  plain_text (search c) = true ->
  filtered_data contains_ignorecase data (with_search c (lower (search c)))
  = filtered_data contains_ignorecase data c.
Proof.
  intros Hplain.
  assert (Hlower : plain_text (lower (search c)) = true)
    by now rewrite plain_text_lower.
  rewrite !filtered_data_closed_form.
  cbn [with_search countries year_range selected_categories search].
  rewrite truthy_lower.
  unfold contains_ignorecase, re_compile.
  rewrite (parse_plain_text _ Hplain), (parse_plain_text _ Hlower).
  cbn [bind].
  assert (Htest : forall r,
             row_selected (with_search c (lower (search c))) r = row_selected c r)
    by reflexivity.
  destruct (mem "Country" (columns data)); [| reflexivity].
  destruct (mem "Year" (columns data)); [| reflexivity].
  destruct (mem "All" (selected_categories c) || mem "Category" (columns data));
    [| reflexivity].
  destruct (truthy (search c)); [| reflexivity].
  destruct (mem "Test Name" (columns data)); [| reflexivity].
  f_equal. f_equal. apply filter_ext. intros r.
  now rewrite Htest, re_search_lower.
Qed.

Lemma search_text_case_ignored_witness :
  filtered_data contains_ignorecase sample_data
    (with_search
       {| countries := ["USA"; "USSR"]; year_range := (1960, 1970);
          selected_categories := ["All"]; search := "ABLE" |}
       (lower "ABLE"))
  = filtered_data contains_ignorecase sample_data
      {| countries := ["USA"; "USSR"]; year_range := (1960, 1970);
         selected_categories := ["All"]; search := "ABLE" |}.
Proof. apply search_text_case_ignored. reflexivity. Defined.

(** "ABLE" finds the test named "Able". *)
Example upper_case_search :
  filtered_data contains_ignorecase sample_data
    {| countries := ["USA"; "USSR"]; year_range := (1960, 1970);
       selected_categories := ["All"]; search := "ABLE" |}
  = Ok {| columns := columns sample_data;
          rows := [nuclear_row 0 "USA" 1965 500 "Shaft" "Able"] |}.
Proof. reflexivity. Qed.

Lemma filtered_data_row_test
      (str_contains : string -> result (string -> bool))
      (data view : DataFrame) (c : Criteria) :
  filtered_data str_contains data c = Ok view ->
  exists test,
    row_test str_contains c = Ok test
    /\ view = {| columns := columns data; rows := filter test (rows data) |}.
Proof.
  rewrite filtered_data_closed_form. unfold row_test.
  destruct (mem "Country" (columns data)); [| discriminate].
  destruct (mem "Year" (columns data)); [| discriminate].
  destruct (mem "All" (selected_categories c) || mem "Category" (columns data));
    [| discriminate].
  destruct (truthy (search c)).
  - destruct (mem "Test Name" (columns data)); [| discriminate].
    destruct (str_contains (search c)) as [matcher | e]; [| discriminate].
    cbn [bind]. intros H. injection H as <-. eexists. split; reflexivity.
  - intros H. injection H as <-. eexists. split; reflexivity.
Qed.

(** X14.  Two filters one after the other give the same view in either
    order, whenever both orders return a view. *)
Theorem filters_commute
        (str_contains : string -> result (string -> bool))
        (data va vab vb vba : DataFrame) (a b : Criteria) :
  filtered_data str_contains data a = Ok va ->
  filtered_data str_contains va b = Ok vab ->
  filtered_data str_contains data b = Ok vb ->
  filtered_data str_contains vb a = Ok vba ->
  vab = vba.
Proof.
  intros Ha Hab Hb Hba.
  apply filtered_data_row_test in Ha, Hab, Hb, Hba.
  destruct Ha as [ta [Hta ->]]. destruct Hab as [tb [Htb ->]].
  destruct Hb as [tb' [Htb' ->]]. destruct Hba as [ta' [Hta' ->]].
  assert (ta' = ta) by congruence. assert (tb' = tb) by congruence. subst.
  cbn [columns rows]. f_equal. rewrite !filter_filter.
  apply filter_ext. intros r. apply andb_comm.
Qed.

Lemma filters_commute_witness :
  {| columns := columns sample_data;
     rows := [nuclear_row 0 "USA" 1965 500 "Shaft" "Able"] |}
  = {| columns := columns sample_data;
       rows := [nuclear_row 0 "USA" 1965 500 "Shaft" "Able"] |}.
Proof.
  apply (filters_commute contains_ignorecase sample_data
           {| columns := columns sample_data;
              rows := [ nuclear_row 0 "USA" 1965 500 "Shaft" "Able";
                        nuclear_row 1 "USA" 1970 300 "Atmospheric" "Baker" ] |}
           {| columns := columns sample_data;
              rows := [nuclear_row 0 "USA" 1965 500 "Shaft" "Able"] |}
           {| columns := columns sample_data;
              rows := [ nuclear_row 0 "USA" 1965 500 "Shaft" "Able";
                        nuclear_row 2 "USSR" 1965 800 "Shaft" "Joe";
                        nuclear_row 4 "France" 1966 200 "Shaft" "Gerboise" ] |}
           {| columns := columns sample_data;
              rows := [nuclear_row 0 "USA" 1965 500 "Shaft" "Able"] |}
           {| countries := ["USA"]; year_range := (1945, 1998);
              selected_categories := ["All"]; search := "" |}
           {| countries := ["USA"; "USSR"; "France"]; year_range := (1960, 1968);
              selected_categories := ["Shaft"]; search := "e" |});
    reflexivity.
Defined.

(** ** Loading: the missing columns *)

(** X15.  When the file can be read but its header lacks required
    columns, the error message of [load_data] carries a [KeyError] that
    lists exactly the required labels the header lacks, and the table
    returned is the empty one. *)
Theorem missing_columns_reported (env : Env) (csv : Csv) (page : list element) :
  nuclear_explosions_csv env = Ok csv ->
  ~ all_present csv ->
  exists missing,
    load_data env page
    = (Ok empty_frame,
       (page ++ [st_error [VText "Error loading data: "; VExc (KeyError missing)]])%list)
    /\ missing <> []
    /\ forall l, In l missing <-> In l required_columns /\ ~ In l (header csv).
Proof.
  intros Hcsv Habsent.
  unfold load_data, load_data_body, read_csv. rewrite Hcsv.
  cbn [bind]. unfold dropna. cbn [raw_columns raw_rows].
  pose proof (nothing_missing (header csv) required_columns) as Hmissing.
  assert (Hlabels : forall l,
             In l (filter (fun l => negb (mem l (header csv))) required_columns)
             <-> In l required_columns /\ ~ In l (header csv)).
  { intros l. rewrite filter_In, negb_true_iff.
    pose proof (mem_In l (header csv)) as Hmem.
    destruct (mem l (header csv)); intuition congruence. }
  destruct (filter (fun l => negb (mem l (header csv))) required_columns)
    as [| label missing].
  - elim Habsent. unfold all_present. now apply Hmissing.
  - exists (label :: missing). cbn [bind].
    split; [reflexivity |]. split; [discriminate | exact Hlabels].
Qed.

Lemma missing_columns_reported_witness :
  exists missing,
    load_data headless_env []
    = (Ok empty_frame,
       ([] ++ [st_error [VText "Error loading data: "; VExc (KeyError missing)]])%list)
    /\ missing <> []
    /\ forall l, In l missing
                 <-> In l required_columns /\ ~ In l ["Date.Year"; "Data.Name"].
Proof.
  apply (missing_columns_reported headless_env
           {| header := ["Date.Year"; "Data.Name"]; lines := [] |} []);
    [reflexivity |].
  intros Hpresent.
  assert (H : In "Date.Day" ["Date.Year"; "Data.Name"])
    by (apply Hpresent; simpl; tauto).
  simpl in H. destruct H as [H | [H | []]]; discriminate H.
Defined.
